(** * golang_practice: the Go exercises and the Express server, embedded

    The repository holds five small programs:
    - [src/unnamed/part_000]   the error-handling example ([doSomething]);
    - [src/webrequest/main.go] an HTTP client that prints a response body;
    - [src/webserver/main.go]  an HTTP client that prints status, length, body;
    - [src/unnamed/part_001]   the [net/url] demonstration;
    - [src/server/index.js]    an Express application with two routes.

    Each program is a module below, written statement by statement after
    its source.  Go strings are byte sequences and are modelled by
    [string]; [int] and [int64] values are modelled by [Z].

    The programs are a few lines each and live on their libraries.  What
    they call is modelled at the interface they use: the network answers
    [http.Get] and the body stream answers [ReadAll] as an input of the
    run; [url.Parse] and [Query] follow the source of Go's [net/url];
    Express's router and [res.send] follow its documented defaults; the
    outcome of its JSON body parser on a request, and whether the cache
    validators of the request match a response, are part of the
    request. *)

From Stdlib Require Import String Ascii List ZArith Bool DecimalString DecimalZ.
From stdpp Require Import gmap strings.
Import ListNotations.

Local Open Scope string_scope.
Local Open Scope Z_scope.

(** ** Text *)

Module Text.

(** The decimal numeral of an integer, with a minus sign when negative. *)
Definition decimal (n : Z) : string := NilEmpty.string_of_int (Z.to_int n).

(** The strings of [l], with [sep] between neighbours. *)
Fixpoint join (sep : string) (l : list string) : string :=
  match l with
  | [] => ""
  | [s] => s
  | s :: rest => s +:+ sep +:+ join sep rest
  end.

End Text.

(** ** The part of the Go runtime the programs use *)

Module Go.

(** An [error] interface value: [None] is [nil], [Some msg] is a value
    whose [Error()] method returns [msg]. *)
Definition error : Type := option string.

(** [errors.New] *)
Definition errors_New (text : string) : error := Some text.

Section Runtime.

(** [V] is the type of the values a program hands to [fmt.Println] and to
    [panic] (Go's [interface{}] restricted to what the program uses). *)
Context {V : Type}.

(** What a process does that is visible from outside, in order. *)
Inductive Event : Type :=
| Printed (ops : list V)       (* one call of fmt.Println with these operands *)
| HttpGet (url : string)     (* one call of http.Get *)
| ReadAll                    (* the response body is read up to EOF or error *)
| CloseBody.                 (* the response body is closed *)

(** A call registered by [defer].  The programs defer one kind of call. *)
Inductive Deferred : Type :=
| DeferClose.                (* response.Body.Close() *)

(** A function activation: what has happened so far, and the calls
    registered by [defer] in this activation, most recent first. *)
Record Frame : Type := mkFrame {
  events : list Event;
  deferred : list Deferred
}.

Inductive Result (A : Type) : Type :=
| Normal (a : A)
| Panic (v : V).

Definition M (A : Type) : Type := Frame -> Result A * Frame.

Definition ret {A} (a : A) : M A := fun f => (Normal A a, f).

Definition bind {A B} (m : M A) (k : A -> M B) : M B :=
  fun f =>
    match m f with
    | (Normal _ a, f') => k a f'
    | (Panic _ v, f') => (Panic B v, f')
    end.

Definition emit (e : Event) : M unit :=
  fun f => (Normal unit tt, mkFrame (events f ++ [e]) (deferred f)).

(** [panic(v)] *)
Definition panic {A} (v : V) : M A := fun f => (Panic A v, f).

(** [defer d]: pushed on the activation's stack, run when it ends. *)
Definition defer (d : Deferred) : M unit :=
  fun f => (Normal unit tt, mkFrame (events f) (d :: deferred f)).

(** [fmt.Println] *)
Definition Println (ops : list V) : M unit := emit (Printed ops).

Definition run_deferred (evs : list Event) (d : Deferred) : list Event :=
  match d with
  | DeferClose => evs ++ [CloseBody]
  end.

(** Calling a function: a fresh activation; when the body ends, by return
    or by panic, its deferred calls run, last registered first, and then
    the result (or the panic) reaches the caller. *)
Definition call {A} (body : M A) : M A :=
  fun f =>
    let '(r, f') := body (mkFrame (events f) []) in
    (r, mkFrame (fold_left run_deferred (deferred f') (events f')) (deferred f)).

(** How a process ends. *)
Inductive Exit : Type :=
| Returned                   (* main returned: exit status 0 *)
| Panicked (v : V).          (* a panic reached the top of the goroutine:
                                the runtime reports it and exits with status 2 *)

(** Running a program: [main] is called in an empty process. *)
Definition run (main : M unit) : list Event * Exit :=
  match call main (mkFrame [] []) with
  | (Normal _ _, f) => (events f, Returned)
  | (Panic _ v, f) => (events f, Panicked v)
  end.

End Runtime.

Arguments Event : clear implicits.
Arguments Frame : clear implicits.
Arguments Result : clear implicits.
Arguments M : clear implicits.
Arguments Exit : clear implicits.

(** The operands of the error example and of the two HTTP clients. *)
Inductive any : Type :=
| AString (s : string)
| AError (e : error)
| AInt (n : Z).


(** The [%v] form of one operand; a nil error prints as [<nil>]. *)
Definition Sprint (a : any) : string :=
  match a with
  | AString s => s
  | AError (Some msg) => msg
  | AError None => "<nil>"
  | AInt n => Text.decimal n
  end.

Definition newline : string := String (ascii_of_nat 10) "".

(** [fmt.Sprintln]: the operands in their default format, always separated
    by one space, followed by a newline.  It interprets no format verb. *)
Definition Sprintln (ops : list any) : string :=
  Text.join " " (map Sprint ops) +:+ newline.

(** Standard output of a run: what the [Println] calls wrote, in order. *)
Fixpoint stdout (evs : list (Event any)) : string :=
  match evs with
  | [] => ""
  | Printed ops :: rest => Sprintln ops +:+ stdout rest
  | _ :: rest => stdout rest
  end.

End Go.

(** [Go.M V] is a monad; stdpp's notations [x ← c; k] and [c;; k] render
    the statement sequences of the Go sources. *)
#[export] Instance go_ret {V} : MRet (Go.M V) := @Go.ret V.
#[export] Instance go_bind {V} : MBind (Go.M V) := fun A B k m => Go.bind m k.

(** ** src/unnamed/part_000: the error-handling example *)

Module ErrorExample.
Import Go.

(** [func doSomething() error] *)
Definition doSomething (_ : unit) : error :=
  errors_New "unable to do something".

(** [func main()] *)
Definition main : M any unit :=
  let err := doSomething tt in
  match err with
  | Some _ => Println [AString "Error:"; AError err]
  | None => Println [AString "Success"]
  end.

End ErrorExample.

(** ** The part of net/http and io/ioutil the two clients use *)

Module Http.
Import Go.

(** [response.Body] is an [io.ReadCloser]; what the program can observe of
    it is what reading it to the end does.  [ioutil.ReadAll] calls [Read]
    until EOF or an error and returns the bytes read so far with that
    error; a panic raised inside [Read] passes through [ReadAll]. *)
Inductive BodyStream : Type :=
| BodyComplete (content : string)            (* the whole body arrives *)
| BodyBroken (received : string) (err : string) (* the read fails part-way *)
| BodyPanics (v : any).                      (* Read panics *)

(** [*http.Response], the fields the programs read. *)
Record Response : Type := mkResponse {
  StatusCode : Z;
  ContentLength : Z;
  Body : BodyStream
}.

(** The two results of [http.Get]: [(nil, err)] with a non-nil error for a
    transport-level failure, [(response, nil)] otherwise. *)
Inductive GetResult : Type :=
| GetFailed (err : string)
| GetOk (response : Response).

(** The network, as the process sees it. *)
Definition Network : Type := string -> GetResult.

(** [http.Get(url)] *)
Definition Get (net : Network) (url : string) : M any GetResult :=
  emit (HttpGet url);; mret (net url).

(** [ioutil.ReadAll(body)] *)
Definition ReadAll (body : BodyStream) : M any (string * error) :=
  emit Go.ReadAll;;
  match body with
  | BodyComplete content => mret (content, None)
  | BodyBroken received err => mret (received, Some err)
  | BodyPanics v => panic v
  end.

End Http.

(** ** src/webrequest/main.go *)

Module WebRequest.
Import Go Http.

Definition url : string := "https://github.com/mUsman2003".

(** [func main()] *)
Definition main (net : Network) : M any unit :=
  Println [AString "WebRequest Practice"];;
  r ← Http.Get net url;
  match r with
  | GetFailed err => panic (AError (Some err))
  | GetOk response =>
      '(databyte, err) ← Http.ReadAll (Body response);
      Println [AString "Data%v"; AString databyte];;
      defer DeferClose
  end.

End WebRequest.

(** ** src/webserver/main.go *)

Module WebServer.
Import Go Http.

(** [const myurl], declared inside [myGetrequest] *)
Definition myurl : string := "http://localhost:3000/get".

(** [func myGetrequest()] *)
Definition myGetrequest (net : Network) : M any unit :=
  r ← Http.Get net myurl;
  match r with
  | GetFailed err => panic (AError (Some err))
  | GetOk response =>
      defer DeferClose;;
      Println [AString "Status code: "; AInt (StatusCode response)];;
      Println [AString "COntent Length: "; AInt (ContentLength response)];;
      '(data, _) ← Http.ReadAll (Body response);
      Println [AString data]
  end.

(** [func main()] *)
Definition main (net : Network) : M any unit :=
  Println [AString "Local host"];;
  call (myGetrequest net).

End WebServer.

(** ** The part of Go's strings package that net/url uses *)

Module Strings.

Definition byte_between (lo hi c : ascii) : bool :=
  (N_of_ascii lo <=? N_of_ascii c)%N && (N_of_ascii c <=? N_of_ascii hi)%N.

Fixpoint take (n : nat) (s : string) : string :=
  match n, s with
  | S n', String c rest => String c (take n' rest)
  | _, _ => ""
  end.

Fixpoint drop (n : nat) (s : string) : string :=
  match n, s with
  | S n', String _ rest => drop n' rest
  | _, _ => s
  end.

(** [strings.Cut(s, sep)] for a one-byte separator: the text before and
    after the first [sep], and whether [sep] occurs. *)
Fixpoint Cut (s : string) (sep : ascii) : string * string * bool :=
  match s with
  | "" => ("", "", false)
  | String c rest =>
      if Ascii.eqb c sep then ("", rest, true)
      else let '(before, after, found) := Cut rest sep in
           (String c before, after, found)
  end.

(** [strings.IndexByte] *)
Fixpoint IndexByte (s : string) (c : ascii) : option nat :=
  match s with
  | "" => None
  | String d rest =>
      if Ascii.eqb d c then Some O
      else match IndexByte rest c with
           | Some i => Some (S i)
           | None => None
           end
  end.

(** [strings.LastIndexByte] *)
Fixpoint LastIndexByte (s : string) (c : ascii) : option nat :=
  match s with
  | "" => None
  | String d rest =>
      match LastIndexByte rest c with
      | Some i => Some (S i)
      | None => if Ascii.eqb d c then Some O else None
      end
  end.

Definition ContainsByte (s : string) (c : ascii) : bool :=
  match IndexByte s c with Some _ => true | None => false end.

Fixpoint CountByte (s : string) (c : ascii) : nat :=
  match s with
  | "" => O
  | String d rest => (if Ascii.eqb d c then 1 else 0)%nat + CountByte rest c
  end.

Definition HasPrefix (s prefix : string) : bool := String.prefix prefix s.

Definition HasSuffix (s suffix : string) : bool :=
  (String.length suffix <=? String.length s)%nat &&
  String.eqb (drop (String.length s - String.length suffix) s) suffix.

Definition lower (c : ascii) : ascii :=
  if byte_between "A" "Z" c then ascii_of_N (N_of_ascii c + 32) else c.

(** [strings.ToLower], on the ASCII letters. *)
Fixpoint ToLower (s : string) : string :=
  match s with
  | "" => ""
  | String c rest => String (lower c) (ToLower rest)
  end.

(** [strings.Split(s, sep)] for a one-byte separator. *)
Fixpoint Split (s : string) (sep : ascii) : list string :=
  match s with
  | "" => [""]
  | String c rest =>
      if Ascii.eqb c sep then "" :: Split rest sep
      else match Split rest sep with
           | piece :: pieces => String c piece :: pieces
           | [] => [String c ""]
           end
  end.

End Strings.

(** ** The part of net/url that the URL demonstration uses

    [url.Parse] and the methods [Port] and [Query] of [URL] with the functions they
    call, after the package's source (Go 1.17 to 1.22: control bytes are
    rejected, [;] is not a query separator).  [RawPath] and [RawFragment],
    encoding hints the program never reads, are left out of [URL]. *)

Module NetUrl.
Import Strings.

Inductive encoding : Type :=
| encodePath
| encodePathSegment
| encodeHost
| encodeZone
| encodeUserPassword
| encodeQueryComponent
| encodeFragment.

Definition encoding_eqb (a b : encoding) : bool :=
  match a, b with
  | encodePath, encodePath | encodePathSegment, encodePathSegment
  | encodeHost, encodeHost | encodeZone, encodeZone
  | encodeUserPassword, encodeUserPassword
  | encodeQueryComponent, encodeQueryComponent
  | encodeFragment, encodeFragment => true
  | _, _ => false
  end.

(** The errors of the package that parsing can produce. *)
Inductive parse_failure : Type :=
| EscapeError (s : string)            (* invalid URL escape "s" *)
| InvalidHostError (s : string)       (* invalid character "s" in host name *)
| InvalidControlCharacter             (* invalid control character in URL *)
| MissingProtocolScheme               (* missing protocol scheme *)
| ColonInFirstPathSegment             (* first path segment in URL cannot contain colon *)
| MissingBracket                      (* missing ']' in host *)
| InvalidPort (colonPort : string)    (* invalid port "..." after host *)
| InvalidUserinfo                     (* net/url: invalid userinfo *)
| InvalidSemicolon.                   (* invalid semicolon separator in query *)

(** [*url.Error] *)
Record Error : Type := mkError {
  Op : string;
  URL_of : string;
  Err : parse_failure
}.

Inductive result (A : Type) : Type :=
| Ok (a : A)
| Failed (e : parse_failure).
Arguments Ok {A} a.
Arguments Failed {A} e.

Definition is_in (c : ascii) (set : string) : bool := ContainsByte set c.

Definition ishex (c : ascii) : bool :=
  byte_between "0" "9" c || byte_between "a" "f" c || byte_between "A" "F" c.

Definition unhex (c : ascii) : N :=
  if byte_between "0" "9" c then N_of_ascii c - N_of_ascii "0"
  else if byte_between "a" "f" c then N_of_ascii c - N_of_ascii "a" + 10
  else if byte_between "A" "F" c then N_of_ascii c - N_of_ascii "A" + 10
  else 0.

Definition alphanum (c : ascii) : bool :=
  byte_between "a" "z" c || byte_between "A" "Z" c || byte_between "0" "9" c.

(** [shouldEscape(c, mode)] *)
Definition shouldEscape (c : ascii) (mode : encoding) : bool :=
  if alphanum c then false
  else if (encoding_eqb mode encodeHost || encoding_eqb mode encodeZone)
          && (is_in c "!$&'()*+,;=:[]<>" || Ascii.eqb c (ascii_of_nat 34))
  then false
  else if is_in c "-_.~" then false
  else if is_in c "$&+,/:;=?@" then
    match mode with
    | encodePath => Ascii.eqb c "?"
    | encodePathSegment => is_in c "/;,?"
    | encodeUserPassword => is_in c "@/?:"
    | encodeQueryComponent => true
    | encodeFragment => false
    | encodeHost | encodeZone => true
    end
  else if encoding_eqb mode encodeFragment && is_in c "!()*" then false
  else true.

Definition hex_byte (a b : ascii) : ascii := ascii_of_N (unhex a * 16 + unhex b).

(** The first loop of [unescape]: every [%] must start a well-formed
    escape that the mode allows, and a host may hold no byte that would
    need escaping. *)
Fixpoint unescape_check (s : string) (mode : encoding) : option parse_failure :=
  match s with
  | "" => None
  | String "%" rest =>
      match rest with
      | String a (String b rest') =>
          if negb (ishex a && ishex b) then Some (EscapeError (take 3 s))
          else if encoding_eqb mode encodeHost && (unhex a <? 8)%N
                  && negb (String.eqb (take 3 s) "%25")
          then Some (EscapeError (take 3 s))
          else if encoding_eqb mode encodeZone
                  && negb (String.eqb (take 3 s) "%25")
                  && negb (Ascii.eqb (hex_byte a b) " ")
                  && shouldEscape (hex_byte a b) encodeHost
          then Some (EscapeError (take 3 s))
          else unescape_check rest' mode
      | _ => Some (EscapeError (take 3 s))
      end
  | String "+" rest => unescape_check rest mode
  | String c rest =>
      if (encoding_eqb mode encodeHost || encoding_eqb mode encodeZone)
         && (N_of_ascii c <? 128)%N && shouldEscape c encodeHost
      then Some (InvalidHostError (String c ""))
      else unescape_check rest mode
  end.

(** The second loop of [unescape]: escapes are decoded, and [+] is a space
    in a query component. *)
Fixpoint unescape_decode (s : string) (mode : encoding) : string :=
  match s with
  | "" => ""
  | String "%" (String a (String b rest)) =>
      String (hex_byte a b) (unescape_decode rest mode)
  | String "+" rest =>
      String (if encoding_eqb mode encodeQueryComponent then " " else "+")
             (unescape_decode rest mode)
  | String c rest => String c (unescape_decode rest mode)
  end.

(** [unescape(s, mode)].  (The source returns [s] itself when it holds no
    [%] and no [+] to translate; decoding such a string gives [s].) *)
Definition unescape (s : string) (mode : encoding) : result string :=
  match unescape_check s mode with
  | Some e => Failed e
  | None => Ok (unescape_decode s mode)
  end.

(** [QueryUnescape] *)
Definition QueryUnescape (s : string) : result string :=
  unescape s encodeQueryComponent.

(** [*Userinfo] *)
Record Userinfo : Type := mkUserinfo {
  username : string;
  password : string;
  passwordSet : bool
}.

(** [URL] *)
Record URL : Type := mkURL {
  Scheme : string;
  Opaque : string;
  User : option Userinfo;
  Host : string;
  Path : string;
  OmitHost : bool;
  ForceQuery : bool;
  RawQuery : string;
  Fragment : string
}.

(** [stringContainsCTLByte] *)
Fixpoint stringContainsCTLByte (s : string) : bool :=
  match s with
  | "" => false
  | String c rest =>
      (N_of_ascii c <? 32)%N || (N_of_ascii c =? 127)%N || stringContainsCTLByte rest
  end.

(** The loop of [getScheme]: [i] is the index of the first byte of [s] in
    [rawURL]. *)
Fixpoint getScheme_from (rawURL : string) (i : nat) (s : string)
  : result (string * string) :=
  match s with
  | "" => Ok ("", rawURL)
  | String c rest =>
      if byte_between "a" "z" c || byte_between "A" "Z" c then
        getScheme_from rawURL (S i) rest
      else if byte_between "0" "9" c || is_in c "+-." then
        match i with
        | O => Ok ("", rawURL)
        | _ => getScheme_from rawURL (S i) rest
        end
      else if Ascii.eqb c ":" then
        match i with
        | O => Failed MissingProtocolScheme
        | _ => Ok (take i rawURL, rest)
        end
      else Ok ("", rawURL)
  end.

(** [getScheme(rawURL)] *)
Definition getScheme (rawURL : string) : result (string * string) :=
  getScheme_from rawURL O rawURL.

(** [validOptionalPort] *)
Definition validOptionalPort (port : string) : bool :=
  match port with
  | "" => true
  | String c digits =>
      Ascii.eqb c ":" &&
      forallb (byte_between "0" "9") (list_ascii_of_string digits)
  end.

(** [validUserinfo] *)
Definition validUserinfo (s : string) : bool :=
  forallb (fun r => alphanum r || is_in r "-._:~!$&'()*+,;=%@")
          (list_ascii_of_string s).

(** [parseHost(host)]: [host] is an authority without user information,
    that is [host[:port]]. *)
Definition parseHost (host : string) : result string :=
  if HasPrefix host "[" then
    match LastIndexByte host "]" with
    | None => Failed MissingBracket
    | Some i =>
        let colonPort := drop (S i) host in
        if negb (validOptionalPort colonPort) then Failed (InvalidPort colonPort)
        else
          match String.index 0 "%25" (take i host) with
          | Some zone =>
              match unescape (take zone host) encodeHost with
              | Failed e => Failed e
              | Ok host1 =>
                  match unescape (drop zone (take i host)) encodeZone with
                  | Failed e => Failed e
                  | Ok host2 =>
                      match unescape (drop i host) encodeHost with
                      | Failed e => Failed e
                      | Ok host3 => Ok (host1 +:+ host2 +:+ host3)
                      end
                  end
              end
          | None => unescape host encodeHost
          end
    end
  else
    match LastIndexByte host ":" with
    | Some i =>
        let colonPort := drop i host in
        if negb (validOptionalPort colonPort) then Failed (InvalidPort colonPort)
        else unescape host encodeHost
    | None => unescape host encodeHost
    end.

(** [parseAuthority(authority)] *)
Definition parseAuthority (authority : string) : result (option Userinfo * string) :=
  let i := LastIndexByte authority "@" in
  match parseHost (match i with
                   | None => authority
                   | Some i => drop (S i) authority
                   end) with
  | Failed e => Failed e
  | Ok host =>
      match i with
      | None => Ok (None, host)
      | Some i =>
          let userinfo := take i authority in
          if negb (validUserinfo userinfo) then Failed InvalidUserinfo
          else if negb (ContainsByte userinfo ":") then
            match unescape userinfo encodeUserPassword with
            | Failed e => Failed e
            | Ok userinfo => Ok (Some (mkUserinfo userinfo "" false), host)
            end
          else
            let '(username, password, _) := Cut userinfo ":" in
            match unescape username encodeUserPassword with
            | Failed e => Failed e
            | Ok username =>
                match unescape password encodeUserPassword with
                | Failed e => Failed e
                | Ok password => Ok (Some (mkUserinfo username password true), host)
                end
            end
      end
  end.

(** [parse(rawURL, viaRequest)] with [viaRequest = false], as [Parse]
    calls it. *)
Definition parse (rawURL : string) : result URL :=
  if stringContainsCTLByte rawURL then Failed InvalidControlCharacter
  else if String.eqb rawURL "*" then
    Ok (mkURL "" "" None "" "*" false false "" "")
  else
    match getScheme rawURL with
    | Failed e => Failed e
    | Ok (scheme, rest) =>
        let scheme := ToLower scheme in
        let '(rest, forceQuery, rawQuery) :=
          if HasSuffix rest "?" && (CountByte rest "?" =? 1)%nat
          then (take (String.length rest - 1) rest, true, "")
          else let '(before, after, _) := Cut rest "?" in (before, false, after) in
        if negb (HasPrefix rest "/") && negb (String.eqb scheme "") then
          (* a rootless path after a scheme is opaque *)
          Ok (mkURL scheme rest None "" "" false forceQuery rawQuery "")
        else if negb (HasPrefix rest "/")
                && ContainsByte (fst (fst (Cut rest "/"))) ":" then
          Failed ColonInFirstPathSegment
        else if (negb (String.eqb scheme "") || negb (HasPrefix rest "///"))
                && HasPrefix rest "//" then
          let authority := drop 2 rest in
          let '(authority, rest) :=
            match IndexByte authority "/" with
            | Some i => (take i authority, drop i authority)
            | None => (authority, "")
            end in
          match parseAuthority authority with
          | Failed e => Failed e
          | Ok (user, host) =>
              (* setPath *)
              match unescape rest encodePath with
              | Failed e => Failed e
              | Ok path =>
                  Ok (mkURL scheme "" user host path false forceQuery rawQuery "")
              end
          end
        else
          let omitHost := negb (String.eqb scheme "") && HasPrefix rest "/" in
          (* setPath *)
          match unescape rest encodePath with
          | Failed e => Failed e
          | Ok path =>
              Ok (mkURL scheme "" None "" path omitHost forceQuery rawQuery "")
          end
    end.

(** [url.Parse(rawURL)] *)
Definition Parse (rawURL : string) : Error + URL :=
  let '(u, frag, _) := Cut rawURL "#" in
  match parse u with
  | Failed e => inl (mkError "parse" u e)
  | Ok url =>
      if String.eqb frag "" then inr url
      else
        (* setFragment *)
        match unescape frag encodeFragment with
        | Failed e => inl (mkError "parse" rawURL e)
        | Ok fragment =>
            inr (mkURL (Scheme url) (Opaque url) (User url) (Host url) (Path url)
                       (OmitHost url) (ForceQuery url) (RawQuery url) fragment)
        end
  end.

(** [splitHostPort] *)
Definition splitHostPort (hostPort : string) : string * string :=
  let '(host, port) :=
    match LastIndexByte hostPort ":" with
    | Some colon =>
        if validOptionalPort (drop colon hostPort)
        then (take colon hostPort, drop (S colon) hostPort)
        else (hostPort, "")
    | None => (hostPort, "")
    end in
  if HasPrefix host "[" && HasSuffix host "]"
  then (take (String.length host - 2) (drop 1 host), port)
  else (host, port).

(** The method [Port] of [URL]. *)
Definition Port (u : URL) : string := snd (splitHostPort (Host u)).

(** [Values], Go's [map[string][]string]. *)
Abbreviation Values := (gmap string (list string)).

(** One round of the loop of [parseQuery] for the piece [key] that ends
    at the next [&]: the state is the map and the first error so far. *)
Definition parseQuery_step (st : Values * option parse_failure) (key : string)
  : Values * option parse_failure :=
  let '(m, err) := st in
  if ContainsByte key ";" then (m, Some InvalidSemicolon)
  else if String.eqb key "" then (m, err)
  else
    let '(key, value, _) := Cut key "=" in
    match QueryUnescape key with
    | Failed err1 => (m, match err with None => Some err1 | Some _ => err end)
    | Ok key =>
        match QueryUnescape value with
        | Failed err1 => (m, match err with None => Some err1 | Some _ => err end)
        | Ok value => (<[key := List.app (default [] (m !! key)) [value]]> m, err)
        end
    end.

(** [ParseQuery(query)].  The source cuts the query at each [&] in turn
    until nothing is left; these are the pieces of [Split], and an empty
    piece changes nothing. *)
Definition ParseQuery (query : string) : Values * option parse_failure :=
  fold_left parseQuery_step (Split query "&") (∅, None).

(** The method [Query] of [URL]: the error of [ParseQuery] is dropped. *)
Definition Query (u : URL) : Values := fst (ParseQuery (RawQuery u)).

End NetUrl.

(** ** src/unnamed/part_001: the URL demonstration *)

Module UrlDemo.
Import Go NetUrl.

(** The values this program prints or panics with. *)
Inductive value : Type :=
| VString (s : string)
| VUser (u : option Userinfo)          (* a *Userinfo, possibly nil *)
| VValues (v : Values)
| VError (e : NetUrl.Error).

Definition myurl : string :=
  "https://www.fiverr.com/ut_works/develop-a-game-prototype-in-unreal-engine-using-blueprints-and-cpp?context_referrer=tailored_homepage_perseus&source=recently_viewed_gigs&ref_ctx_id=81fdc44fce1549e3ba55dfbbcee88d3f&context=recommendation&pckg_id=1&pos=1&context_alg=recently_viewed&imp_id=94934311-06cc-4d35-b9f6-974360f9773e".

(** The body of [main], for the URL string it is given. *)
Definition parse_and_print (rawurl : string) : M value unit :=
  Println [VString "Welcome to urls in Golang"];;
  match Parse rawurl with
  | inl err => panic (VError err)
  | inr result =>
      Println [VString (Scheme result)];;
      Println [VString (Host result)];;
      Println [VString (Path result)];;
      Println [VUser (User result)];;
      Println [VString (RawQuery result)];;
      Println [VString (Port result)];;
      Println [VValues (Query result)]
  end.

(** [func main()] *)
Definition main : M value unit := parse_and_print myurl.

End UrlDemo.

(** ** The JavaScript values and built-ins the server uses *)

Module JS.

(** A JavaScript number is an IEEE double; the server only ever turns one
    into text.  The number type is left open, with the two operations
    [JSON.stringify] needs: [isFinite] and [Number::toString]. *)
Class NumberOps (Number : Type) : Type := {
  isFinite : Number -> bool;
  Number_toString : Number -> string
}.

(** The numbers [n] with [Number.isSafeInteger(n)]: the integers of
    magnitude at most 2^53 - 1, which [Number::toString] prints in
    decimal. *)
Record SafeInteger : Type := mkSafeInteger {
  value : Z;
  value_safe : (Z.abs value <=? 2 ^ 53 - 1) = true
}.

#[export] Instance safe_integers : NumberOps SafeInteger := {
  isFinite := fun _ => true;
  Number_toString := fun n => Text.decimal (value n)
}.

Definition one : SafeInteger := mkSafeInteger 1 eq_refl.

(** The safe integers together with the three numbers that are not
    finite, as [Number::toString] prints them. *)
Inductive ExtendedInteger : Type :=
| Finite (n : SafeInteger)
| NaN
| PlusInfinity
| MinusInfinity.

#[export] Instance extended_integers : NumberOps ExtendedInteger := {
  isFinite := fun n => match n with Finite _ => true | _ => false end;
  Number_toString := fun n =>
    match n with
    | Finite n => Text.decimal (value n)
    | NaN => "NaN"
    | PlusInfinity => "Infinity"
    | MinusInfinity => "-Infinity"
    end
}.

Section Values.
Context {Number : Type} `{NumberOps Number}.

(** The values that can sit in [req.body]: [undefined] and the values
    [JSON.parse] builds.  An object is the list of its own properties in
    enumeration order; a string is given by its UTF-8 bytes. *)
#[warnings="-register-all"]
Inductive Value : Type :=
| Undefined
| Null
| Boolean (b : bool)
| Num (n : Number)
| Str (s : string)
| Array (elements : list Value)
| Object (properties : list (string * Value)).

Definition hex_digit (n : N) : ascii :=
  if (n <? 10)%N then ascii_of_N (48 + n) else ascii_of_N (87 + n).

(** One code unit inside [QuoteJSONString]. *)
Definition quote_char (c : ascii) : string :=
  let n := N_of_ascii c in
  if (n =? 34)%N then String "\" (String c "")            (* the double quote *)
  else if (n =? 92)%N then "\\"
  else if (n =? 8)%N then "\b"
  else if (n =? 9)%N then "\t"
  else if (n =? 10)%N then "\n"
  else if (n =? 12)%N then "\f"
  else if (n =? 13)%N then "\r"
  else if (n <? 32)%N then
    "\u00" +:+ String (hex_digit (n / 16)) (String (hex_digit (n mod 16)) "")
  else String c "".

Fixpoint quote_chars (s : string) : string :=
  match s with
  | "" => ""
  | String c rest => quote_char c +:+ quote_chars rest
  end.

Definition dquote : string := String (ascii_of_nat 34) "".

(** [QuoteJSONString] *)
Definition QuoteJSONString (s : string) : string :=
  dquote +:+ quote_chars s +:+ dquote.

(** [JSON.stringify(value)] with no replacer and no indentation; the
    result is [None] where JavaScript returns [undefined]. *)
Fixpoint JSON_stringify (value : Value) : option string :=
  match value with
  | Undefined => None
  | Null => Some "null"
  | Boolean true => Some "true"
  | Boolean false => Some "false"
  | Num n => Some (if isFinite n then Number_toString n else "null")
  | Str s => Some (QuoteJSONString s)
  | Array elements =>
      Some ("[" +:+
            Text.join "," (map (fun e => default "null" (JSON_stringify e)) elements)
            +:+ "]")
  | Object properties =>
      Some ("{" +:+
            Text.join ","
              ((fix members (l : list (string * Value)) : list string :=
                  match l with
                  | [] => []
                  | (key, v) :: rest =>
                      match JSON_stringify v with
                      | Some text => (QuoteJSONString key +:+ ":" +:+ text) :: members rest
                      | None => members rest
                      end
                  end) properties)
            +:+ "}")
  end.

(** The text a template literal puts in place of [${x}] when [x] is a
    string or [undefined]. *)
Definition interpolate (x : option string) : string := default "undefined" x.

End Values.

Arguments Value : clear implicits.

End JS.

(** ** JSON texts

    What it means for a text to be a JSON text of a value, after the
    grammar of RFC 8259; the texts [JSON.stringify] produces are compared
    with it below. *)

Module Json.
Import JS.

(** The character an escape letter stands for (RFC 8259, section 7). *)
Definition escaped (letter : ascii) : option ascii :=
  if Ascii.eqb letter (ascii_of_nat 34) then Some (ascii_of_nat 34)
  else if Ascii.eqb letter "\" then Some "\"%char
  else if Ascii.eqb letter "/" then Some "/"%char
  else if Ascii.eqb letter "b" then Some (ascii_of_nat 8)
  else if Ascii.eqb letter "f" then Some (ascii_of_nat 12)
  else if Ascii.eqb letter "n" then Some (ascii_of_nat 10)
  else if Ascii.eqb letter "r" then Some (ascii_of_nat 13)
  else if Ascii.eqb letter "t" then Some (ascii_of_nat 9)
  else None.

(** The bytes that the characters between the quotes of a JSON string
    stand for.  Unescaped control characters and quotes are not allowed;
    of the [\uXXXX] escapes, those of the ASCII characters are read. *)
Fixpoint chars (text : string) : option string :=
  match text with
  | "" => Some ""
  | String c rest =>
      if Ascii.eqb c "\" then
        match rest with
        | String letter rest' =>
            if Ascii.eqb letter "u" then
              match rest' with
              | String h1 (String h2 (String h3 (String h4 rest''))) =>
                  if Ascii.eqb h1 "0" && Ascii.eqb h2 "0"
                     && NetUrl.ishex h3 && NetUrl.ishex h4
                     && (NetUrl.unhex h3 <? 8)%N
                  then option_map (String (NetUrl.hex_byte h3 h4)) (chars rest'')
                  else None
              | _ => None
              end
            else
              match escaped letter with
              | Some d => option_map (String d) (chars rest')
              | None => None
              end
        | "" => None
        end
      else if (N_of_ascii c <? 32)%N || Ascii.eqb c (ascii_of_nat 34) then None
      else option_map (String c) (chars rest)
  end.

Section Grammar.
Context {Number : Type} `{NumberOps Number}.

(** The values [JSON.parse] builds from a text whose numbers are in the
    range of the doubles. *)
Fixpoint parsed (v : Value Number) : bool :=
  match v with
  | Undefined => false
  | Null | Boolean _ | Str _ => true
  | Num n => isFinite n
  | Array elements => forallb parsed elements
  | Object properties => forallb (fun p => parsed (snd p)) properties
  end.

(** The grammar of JSON texts (RFC 8259) without optional white space,
    with the value each text stands for.  The text of a number is the
    numeral [Number::toString] gives it, which is a JSON number for every
    finite number. *)
Inductive denotes : string -> Value Number -> Prop :=
| denotes_null : denotes "null" Null
| denotes_true : denotes "true" (Boolean true)
| denotes_false : denotes "false" (Boolean false)
| denotes_number n :
    isFinite n = true -> denotes (Number_toString n) (Num n)
| denotes_string text s :
    chars text = Some s -> denotes (dquote +:+ text +:+ dquote) (Str s)
| denotes_empty_array : denotes "[]" (Array [])
| denotes_array text elements :
    denotes_elements text elements ->
    denotes ("[" +:+ text +:+ "]") (Array elements)
| denotes_empty_object : denotes "{}" (Object [])
| denotes_object text properties :
    denotes_members text properties ->
    denotes ("{" +:+ text +:+ "}") (Object properties)
with denotes_elements : string -> list (Value Number) -> Prop :=
| denotes_last_element text v :
    denotes text v -> denotes_elements text [v]
| denotes_more_elements text v texts vs :
    denotes text v -> denotes_elements texts vs ->
    denotes_elements (text +:+ "," +:+ texts) (v :: vs)
with denotes_members : string -> list (string * Value Number) -> Prop :=
| denotes_last_member name key text v :
    chars name = Some key -> denotes text v ->
    denotes_members (dquote +:+ name +:+ dquote +:+ ":" +:+ text) [(key, v)]
| denotes_more_members name key text v texts properties :
    chars name = Some key -> denotes text v ->
    denotes_members texts properties ->
    denotes_members (dquote +:+ name +:+ dquote +:+ ":" +:+ text +:+ "," +:+ texts)
                    ((key, v) :: properties).

End Grammar.
End Json.

(** ** The part of Express the server uses

    An application is a stack of layers that [app.use], [app.get] and
    [app.post] push in call order; a request walks down the stack.  The
    matching rules are Express's defaults, which the server does not
    change: paths are compared without regard to letter case and with one
    optional trailing slash ([case sensitive routing] and [strict routing]
    are off), a GET route also serves HEAD, and an OPTIONS request that no
    route answers gets the list of the methods registered for its path. *)

Module Express.
Import JS.

(** The request methods of RFC 9110, and PATCH. *)
Inductive Method : Type :=
| GET | HEAD | POST | PUT | DELETE | CONNECT | OPTIONS | TRACE | PATCH.

Definition Method_eqb (a b : Method) : bool :=
  match a, b with
  | GET, GET | HEAD, HEAD | POST, POST | PUT, PUT | DELETE, DELETE
  | CONNECT, CONNECT | OPTIONS, OPTIONS | TRACE, TRACE | PATCH, PATCH => true
  | _, _ => false
  end.

(** The validators of a request without conditional headers, and those
    of a request whose only conditional header is [If-None-Match: *]. *)
Definition unconditional : string -> bool := fun _ => false.

Definition if_none_match_any : string -> bool := fun _ => true.

Section Application.
Context {Number : Type} `{NumberOps Number}.

(** What the body-parsing layer [express.json()] does with a request: it
    either hands the request on with [req.body] set (to the parsed value
    when it has parsed a JSON body; to what it leaves there when the
    request has no body or another content type), or it fails with an
    HTTP error: 400 for a body that is not well-formed JSON or, in its
    strict mode, is not an object or an array; 413 for one over the size
    limit; 415 for an unsupported charset or encoding. *)
Inductive BodyParsing : Type :=
| Parsed (body : Value Number)
| Rejected (status : nat).

(** An incoming request: [req.method], [req.path] (the path without the
    query string), the outcome of parsing its body, and its cache
    validators.  [validators_match text] tells whether the conditional
    headers of the request ([If-None-Match] and [If-Modified-Since],
    unless [Cache-Control: no-cache] disables them) are satisfied by the
    response the application gives when it sends the body [text]: a
    response with the entity tag that [res.send] generates from [text],
    and no [Last-Modified].  A request without conditional headers is
    satisfied by no response. *)
Record Request : Type := mkRequest {
  method : Method;
  path : string;
  json : BodyParsing;
  validators_match : string -> bool
}.

(** [req], as the layers after the body parser see it. *)
Record Req : Type := mkReq {
  request : Request;
  body : Value Number
}.

(** [res]: the status code (200 until changed) and the body once sent. *)
Record Res : Type := mkRes {
  statusCode : nat;
  sent : option string
}.

Definition fresh_res : Res := mkRes 200 None.

(** [req.fresh], read while [res.send] is about to send [text]: only a
    GET or HEAD request can be fresh, only for a status 2xx or 304, and
    then it is when its validators match. *)
Definition fresh (req : Req) (res : Res) (text : string) : bool :=
  let m := method (request req) in
  (Method_eqb m GET || Method_eqb m HEAD)
  && (((200 <=? statusCode res)%nat && (statusCode res <? 300)%nat)
      || (statusCode res =? 304)%nat)
  && validators_match (request req) text.

(** [res.send(text)]: a fresh request is answered with status 304; a
    response with status 204 or 304 (and, from Express 4.18 on, 205) has
    its body emptied; the response then ends with the body, and the
    answer to a HEAD request carries none. *)
Definition send (req : Req) (res : Res) (text : string) : Res :=
  let status := if fresh req res text then 304%nat else statusCode res in
  let chunk :=
    if (status =? 204)%nat || (status =? 304)%nat || (status =? 205)%nat
    then "" else text in
  mkRes status
        (Some (if Method_eqb (method (request req)) HEAD then "" else chunk)).

Definition Handler : Type := Req -> Res -> Res.

(** What a middleware does with a request: [next()], possibly after
    changing [req], or [next(err)] with an HTTP error. *)
Inductive Next : Type :=
| Continue (req : Req)
| NextError (status : nat).

Definition Middleware : Type := Req -> Next.

(** [express.json()] *)
Definition express_json : Middleware :=
  fun req =>
    match json (request req) with
    | Parsed b => Continue (mkReq (request req) b)
    | Rejected status => NextError status
    end.

Inductive Layer : Type :=
| Use (mw : Middleware)                            (* app.use *)
| Route (m : Method) (route_path : string) (h : Handler).  (* app.get, app.post *)

(** [(req, res) => { res.send('Hello from GET!'); }] *)
Definition get_handler : Handler :=
  fun req res => send req res "Hello from GET!".

(** [(req, res) => { const data = req.body;
                     res.send(`Received data: ${JSON.stringify(data)}`); }] *)
Definition post_handler : Handler :=
  fun req res =>
    let data := body req in
    send req res ("Received data: " +:+ interpolate (JSON_stringify data)).

(** The application of [index.js], in the order of its calls. *)
Definition app : list Layer :=
  [ Use express_json;
    Route GET "/get" get_handler;
    Route POST "/post" post_handler ].

Definition PORT : Z := 3000.

(** The routes of a stack. *)
Definition routes (stack : list Layer) : list (Method * string) :=
  flat_map (fun l => match l with
                     | Use _ => []
                     | Route m p _ => [(m, p)]
                     end) stack.

(** A route path without pattern characters matches a request path that
    is equal to it up to ASCII letter case, with or without one trailing
    slash. *)
Definition path_matches (route_path request_path : string) : bool :=
  let p := Strings.ToLower request_path in
  String.eqb p (Strings.ToLower route_path)
  || String.eqb p (Strings.ToLower route_path +:+ "/").

(** The same, for a route path in lower case, as a proposition. *)
Definition names_route (route_path request_path : string) : Prop :=
  Strings.ToLower request_path = route_path
  \/ Strings.ToLower request_path = route_path +:+ "/".

(** A route registered for [m] handles the request method [m], and a GET
    route handles HEAD as well. *)
Definition handles_method (m request_method : Method) : bool :=
  Method_eqb request_method m
  || (Method_eqb request_method HEAD && Method_eqb m GET).

(** The methods a route contributes to the automatic OPTIONS answer. *)
Definition route_options (m : Method) : list Method :=
  match m with
  | GET => [GET; HEAD]
  | _ => [m]
  end.

Definition append_methods (options methods : list Method) : list Method :=
  fold_left (fun acc m => if existsb (Method_eqb m) acc then acc else List.app acc [m])
            methods options.

(** How a request ends. *)
Inductive Reply : Type :=
| FromHandler (res : Res)               (* a handler of the application answered *)
| AutomaticOptions (allow : list Method) (* Express's own answer to OPTIONS *)
| DefaultNotFound                       (* no layer answered: the default 404 *)
| DefaultError (status : nat).          (* a layer failed: the default error answer *)

(** The walk of a request down the stack; [options] are the methods
    collected so far for an OPTIONS request. *)
Fixpoint handle (stack : list Layer) (req : Req) (options : list Method) : Reply :=
  match stack with
  | [] =>
      match options with
      | [] => DefaultNotFound
      | _ => AutomaticOptions options
      end
  | Use mw :: rest =>
      match mw req with
      | Continue req' => handle rest req' options
      | NextError status => DefaultError status
      end
  | Route m route_path h :: rest =>
      if path_matches route_path (path (request req)) then
        if handles_method m (method (request req)) then
          FromHandler (h req fresh_res)
        else if Method_eqb (method (request req)) OPTIONS then
          handle rest req (append_methods options (route_options m))
        else handle rest req options
      else handle rest req options
  end.

(** The server's answer to a request.  Before any layer has run,
    [req.body] is [undefined]. *)
Definition respond (r : Request) : Reply := handle app (mkReq r Undefined) [].

End Application.

Arguments BodyParsing : clear implicits.
Arguments Request : clear implicits.
Arguments Req : clear implicits.
Arguments Res : clear implicits.
Arguments Next : clear implicits.
Arguments Middleware : clear implicits.
Arguments Layer : clear implicits.
Arguments Handler : clear implicits.
Arguments Reply : clear implicits.

End Express.

(** ** src/note.md: the functions of the study notes

    The notes hold Go snippets; the ones below are the functions with
    logic of their own, from the sections on structs and on custom types.
    [int] is the 64-bit integer of the usual platforms, a [Z] that the
    one arithmetic operation, [Age++], wraps around. *)

Module Notes.
Import Go.

Definition MaxInt : Z := 2 ^ 63 - 1.
Definition MinInt : Z := - 2 ^ 63.

(** The value of an [int] computation whose mathematical result is [n]. *)
Definition wrap_int (n : Z) : Z := (n + 2 ^ 63) mod 2 ^ 64 - 2 ^ 63.

(** [time.Time]: the zero value, or some instant. *)
Inductive Time : Type :=
| ZeroTime
| Instant (nanoseconds : Z).

(** [type Person struct] of the section on structs *)
Record Person : Type := mkPerson {
  FirstName : string;
  LastName : string;
  Age : Z;
  Email : string;
  ssn : string;
  birthDate : Time
}.

(** [func NewPersonWithValidation(firstName, lastName, email string, age int)],
    which returns a pointer to a [Person] and an error: here the pair of a
    person, [None] for [nil], and an error. *)
Definition NewPersonWithValidation (firstName lastName email : string) (age : Z)
  : option Person * error :=
  if String.eqb firstName "" || String.eqb lastName "" then
    (None, Some "first name and last name are required")
  else if (age <? 0) || (150 <? age) then
    (None, Some ("invalid age: " +:+ Text.decimal age))
  else
    (Some (mkPerson firstName lastName age email "" ZeroTime), None).

(** [func (p Person) FullName() string] *)
Definition FullName (p : Person) : string :=
  FirstName p +:+ " " +:+ LastName p.

(** [func (p Person) IsAdult() bool] *)
Definition IsAdult (p : Person) : bool := 18 <=? Age p.

(** [func (p *Person) SetEmail(email string)]: the person after the call. *)
Definition SetEmail (p : Person) (email : string) : Person :=
  mkPerson (FirstName p) (LastName p) (Age p) email (ssn p) (birthDate p).

(** [func (p *Person) HaveBirthday()]: the person after the call. *)
Definition HaveBirthday (p : Person) : Person :=
  mkPerson (FirstName p) (LastName p) (wrap_int (Age p + 1)) (Email p)
           (ssn p) (birthDate p).

(** [n] calls of [HaveBirthday] in a row. *)
Fixpoint birthdays (n : nat) (p : Person) : Person :=
  match n with
  | O => p
  | S n' => birthdays n' (HaveBirthday p)
  end.

(** [type UserID int], [type Email string], [type StatusCode int].  The
    type [Email] is [EmailAddress] here and the field [Email] of [User] is
    [UserEmail], the name [Email] being the field of [Person]. *)
Definition UserID : Type := Z.
Definition EmailAddress : Type := string.
Definition StatusCode : Type := Z.

Definition StatusOK : StatusCode := 200.
Definition StatusNotFound : StatusCode := 404.
Definition StatusInternalError : StatusCode := 500.

(** [func (uid UserID) String() string] *)
Definition UserID_String (uid : UserID) : string :=
  "User-" +:+ Text.decimal uid.

(** [func (e Email) IsValid() bool] *)
Definition IsValid (e : EmailAddress) : bool :=
  Strings.ContainsByte e "@" && (3 <? String.length e)%nat.

(** [func (e Email) Domain() string] *)
Definition Domain (e : EmailAddress) : string :=
  let parts := Strings.Split e "@" in
  match parts with
  | [_; domain] => domain
  | _ => ""
  end.

(** [func (sc StatusCode) IsSuccess() bool] *)
Definition IsSuccess (sc : StatusCode) : bool := (200 <=? sc) && (sc <? 300).

(** [func (sc StatusCode) IsError() bool] *)
Definition IsError (sc : StatusCode) : bool := 400 <=? sc.

(** [type User struct] *)
Record User : Type := mkUser {
  ID : UserID;
  UserEmail : EmailAddress;
  Name : string;
  IsActive : bool
}.

(** [func (u User) Validate() error].  The verb [%d] prints the
    identifier as an integer, not through its [String] method. *)
Definition Validate (u : User) : error :=
  if ID u <=? 0 then Some ("invalid user ID: " +:+ Text.decimal (ID u))
  else if negb (IsValid (UserEmail u)) then Some ("invalid email: " +:+ UserEmail u)
  else if String.eqb (Name u) "" then Some "name is required"
  else None.

End Notes.

(** ** What the statements below observe of a run *)

Module Observe.
Import Go.

(** What reading a body returns, when it returns. *)
Definition read_returns (b : Http.BodyStream) (data : string) : Prop :=
  b = Http.BodyComplete data \/ exists err, b = Http.BodyBroken data err.

(** A string of ASCII letters and digits only. *)
Definition plain (s : string) : bool :=
  forallb NetUrl.alphanum (list_ascii_of_string s).

(** A string of decimal digits only. *)
Definition digits (s : string) : bool :=
  forallb (Strings.byte_between "0" "9") (list_ascii_of_string s).

(** The text [key=value]. *)
Definition pair_text (key value : string) : string :=
  key +:+ "=" +:+ value.

(** No key of a query mapping has an empty list of values. *)
Definition values_nonempty (m : gmap string (list string)) : Prop :=
  forall k vs, m !! k = Some vs -> vs <> [].

(** If the body is closed at all, that is the last thing the run does, it
    happens once, and the read came before. *)
Definition closes_last_after_read (evs : list (Event any)) : Prop :=
  In CloseBody evs ->
  exists before,
    evs = (before ++ [CloseBody])%list /\
    ~ In CloseBody before /\ In Go.ReadAll before.







End Observe.

(** ** More inputs *)

Module Cases.
Import Go Http.

(** A network that answers 404 and then breaks the body after the same
    bytes that [Scenario.network_up] delivers. *)
Definition network_not_found_cut : Network :=
  fun _ => GetOk (mkResponse 404 (-1) (BodyBroken "Hello from GET!" "unexpected EOF")).

(** [POST /Post/] with [req.body] left [undefined]. *)
Definition post_without_body : Express.Request JS.SafeInteger :=
  Express.mkRequest Express.POST "/Post/" (Express.Parsed JS.Undefined)
    Express.unconditional.

(** A URL with a tab in its path. *)
Definition url_with_tab : string :=
  "https://host.example/a" +:+ String (ascii_of_nat 9) "b".

(** A URL whose scheme and host are in capitals. *)
Definition url_in_capitals : string := "HTTPS://HOST.EXAMPLE/Path".

(** A parsed URL whose query string repeats the key [x]. *)
Definition url_with_repeated_key : NetUrl.URL :=
  NetUrl.mkURL "https" "" None "host.example" "/path" false false "x=1&x=2" "".

(** A person one birthday away from 18. *)
Definition seventeen : Notes.Person :=
  Notes.mkPerson "Ada" "Lovelace" 17 "ada@example.com" "" Notes.ZeroTime.

(** A person whose age is the largest [int]. *)
Definition oldest : Notes.Person :=
  Notes.mkPerson "Ada" "Lovelace" Notes.MaxInt "ada@example.com" "" Notes.ZeroTime.

End Cases.

(** ** Inputs used in the statements below *)

Module Scenario.
Import Go Http.

(** A network on which nothing listens. *)
Definition network_down : Network :=
  fun _ => GetFailed "dial tcp 127.0.0.1:3000: connect: connection refused".

(** A network on which the GET succeeds and the whole body arrives. *)
Definition network_up : Network :=
  fun _ => GetOk (mkResponse 200 15 (BodyComplete "Hello from GET!")).

(** A network on which the GET succeeds and the read fails part-way. *)
Definition network_cut : Network :=
  fun _ => GetOk (mkResponse 200 15 (BodyBroken "Hello" "unexpected EOF")).

(** A network on which the GET succeeds and reading the body panics. *)
Definition network_with_panicking_body : Network :=
  fun _ => GetOk (mkResponse 200 (-1) (BodyPanics (AString "read: boom"))).

(** The URL of the specification's example. *)
Definition example_url : string := "https://host.example/path?x=1&x=2".



(** [GET /get] without a body: the body parser leaves an empty object. *)
Definition plain_get : Express.Request JS.SafeInteger :=
  Express.mkRequest Express.GET "/get" (Express.Parsed (JS.Object []))
    Express.unconditional.

(** [GET /get] with [Content-Type: application/json] and a body that is
    not JSON: the body parser fails with status 400. *)
Definition get_with_malformed_body : Express.Request JS.SafeInteger :=
  Express.mkRequest Express.GET "/get" (Express.Rejected 400)
    Express.unconditional.

(** [POST /post] with the JSON body of the specification's example, an
    object whose member [a] is 1. *)
Definition post_a1 : Express.Request JS.SafeInteger :=
  Express.mkRequest Express.POST "/post"
    (Express.Parsed (JS.Object [("a", JS.Num JS.one)]))
    Express.unconditional.

(** [GET /get] with the header [If-None-Match: *]. *)
Definition conditional_get : Express.Request JS.SafeInteger :=
  Express.mkRequest Express.GET "/get" (Express.Parsed (JS.Object []))
    Express.if_none_match_any.

(** [POST /post] with [Content-Type: application/json] and a JSON object
    longer than the body parser's limit (100kb unless configured): the
    body parser fails with status 413. *)
Definition post_too_large : Express.Request JS.SafeInteger :=
  Express.mkRequest Express.POST "/post" (Express.Rejected 413)
    Express.unconditional.

(** A text with the characters [JSON.stringify] writes in a special way
    (the double quote, the backslash, backspace, tab, line feed, form
    feed, carriage return and another control character, U+001F) and some
    it writes as they are (the slash, the space, DEL, and the two bytes of
    a letter outside ASCII). *)
Definition awkward_text : string :=
  String (ascii_of_nat 34) (String "\"
    (String (ascii_of_nat 8) (String (ascii_of_nat 9) (String (ascii_of_nat 10)
      (String (ascii_of_nat 12) (String (ascii_of_nat 13) (String (ascii_of_nat 31)
        (String "/" (String " " (String (ascii_of_nat 127)
          (String (ascii_of_nat 195) (String (ascii_of_nat 169) "")))))))))))).

(** A key with a double quote in it. *)
Definition awkward_key : string := "say " +:+ JS.dquote +:+ "hi" +:+ JS.dquote.

(** An object with a number, a string, a key and nested values of every
    kind that [JSON.parse] builds. *)
Definition awkward_body : JS.Value JS.SafeInteger :=
  JS.Object
    [ ("a", JS.Num JS.one);
      (awkward_key, JS.Str awkward_text);
      ("list", JS.Array [JS.Boolean true; JS.Boolean false; JS.Null;
                         JS.Object [("b", JS.Array [])]; JS.Str ""]) ].

(** Its JSON text, written out. *)
Definition awkward_json : string :=
  "{" +:+ JS.dquote +:+ "a" +:+ JS.dquote +:+ ":1,"
  +:+ JS.dquote +:+ "say \" +:+ JS.dquote +:+ "hi\" +:+ JS.dquote +:+ JS.dquote +:+ ":"
  +:+ JS.dquote +:+ "\" +:+ JS.dquote +:+ "\\\b\t\n\f\r\u001f/ "
  +:+ String (ascii_of_nat 127) (String (ascii_of_nat 195) (String (ascii_of_nat 169) ""))
  +:+ JS.dquote +:+ ","
  +:+ JS.dquote +:+ "list" +:+ JS.dquote +:+ ":[true,false,null,{"
  +:+ JS.dquote +:+ "b" +:+ JS.dquote +:+ ":[]},"
  +:+ JS.dquote +:+ JS.dquote +:+ "]}".

(** [POST /post] with that object as JSON body. *)
Definition post_awkward : Express.Request JS.SafeInteger :=
  Express.mkRequest Express.POST "/post" (Express.Parsed awkward_body)
    Express.unconditional.

(** [GET /get/], the path with a trailing slash. *)
Definition get_trailing_slash : Express.Request JS.SafeInteger :=
  Express.mkRequest Express.GET "/get/" (Express.Parsed (JS.Object []))
    Express.unconditional.

(** [HEAD /get] *)
Definition head_get : Express.Request JS.SafeInteger :=
  Express.mkRequest Express.HEAD "/get" (Express.Parsed (JS.Object []))
    Express.unconditional.

(** [OPTIONS /post] *)
Definition options_post : Express.Request JS.SafeInteger :=
  Express.mkRequest Express.OPTIONS "/post" (Express.Parsed (JS.Object []))
    Express.unconditional.

(** [DELETE /other] *)
Definition delete_other : Express.Request JS.SafeInteger :=
  Express.mkRequest Express.DELETE "/other" (Express.Parsed (JS.Object []))
    Express.unconditional.

End Scenario.

(** * Properties *)

(** ** Facts about the string functions *)

Section StringFacts.
Import Strings NetUrl.

Lemma append_assoc (a b c : string) : (a +:+ b) +:+ c = a +:+ (b +:+ c).
Proof.
  induction a as [|x a IH]; [reflexivity|].
  change (String x ((a +:+ b) +:+ c) = String x (a +:+ (b +:+ c))). now f_equal.
Qed.

Lemma length_append (a b : string) :
  String.length (a +:+ b) = (String.length a + String.length b)%nat.
Proof.
  induction a as [|x a IH]; [reflexivity|].
  change (String x a +:+ b) with (String x (a +:+ b)). cbn [String.length].
  now rewrite IH.
Qed.

Lemma eqb_empty_false (s : string) : s <> "" -> String.eqb s "" = false.
Proof. intros N. destruct s; [congruence | reflexivity]. Qed.

Lemma ContainsByte_append (a b : string) (c : ascii) :
  ContainsByte (a +:+ b) c = ContainsByte a c || ContainsByte b c.
Proof.
  unfold ContainsByte. induction a as [|d a IH]; [reflexivity|].
  change (String d a +:+ b) with (String d (a +:+ b)). cbn [IndexByte].
  destruct (Ascii.eqb d c); [reflexivity|].
  destruct (IndexByte (a +:+ b) c), (IndexByte a c), (IndexByte b c);
    cbn in *; congruence.
Qed.

(** [Cut] splits at the first separator. *)
Lemma Cut_at_first (a b : string) (c : ascii) :
  ContainsByte a c = false -> Cut (a +:+ String c b) c = (a, b, true).
Proof.
  unfold ContainsByte. induction a as [|d a IH]; intros N.
  - change ("" +:+ String c b) with (String c b). cbn [Cut].
    now rewrite Ascii.eqb_refl.
  - cbn [IndexByte] in N.
    change (String d a +:+ String c b) with (String d (a +:+ String c b)).
    cbn [Cut]. destruct (Ascii.eqb d c); [discriminate N|].
    rewrite IH; [reflexivity|].
    destruct (IndexByte a c); [discriminate N|reflexivity].
Qed.

Lemma Split_without_separator (s : string) (c : ascii) :
  ContainsByte s c = false -> Split s c = [s].
Proof.
  unfold ContainsByte. induction s as [|d s IH]; intros N; [reflexivity|].
  cbn [IndexByte] in N. cbn [Split]. destruct (Ascii.eqb d c); [discriminate N|].
  rewrite IH; [reflexivity|].
  destruct (IndexByte s c); [discriminate N|reflexivity].
Qed.

Lemma Split_at_first (a b : string) (c : ascii) :
  ContainsByte a c = false -> Split (a +:+ String c b) c = a :: Split b c.
Proof.
  unfold ContainsByte. induction a as [|d a IH]; intros N.
  - change ("" +:+ String c b) with (String c b). cbn [Split].
    now rewrite Ascii.eqb_refl.
  - cbn [IndexByte] in N.
    change (String d a +:+ String c b) with (String d (a +:+ String c b)).
    cbn [Split]. destruct (Ascii.eqb d c); [discriminate N|].
    rewrite IH; [reflexivity|].
    destruct (IndexByte a c); [discriminate N|reflexivity].
Qed.

(** [Split] yields one piece more than there are separators. *)
Lemma Split_length (s : string) (c : ascii) :
  List.length (Split s c) = S (CountByte s c).
Proof.
  induction s as [|d s IH]; [reflexivity|].
  cbn [Split CountByte]. destruct (Ascii.eqb d c).
  - cbn [List.length]. now rewrite IH.
  - destruct (Split s c) as [|p ps]; [discriminate IH|].
    cbn [List.length] in *. now rewrite IH.
Qed.

(** Joining pieces that hold no separator and splitting again gives the
    pieces back. *)
Lemma Split_join (pieces : list string) (c : ascii) :
  pieces <> [] ->
  forallb (fun p => negb (ContainsByte p c)) pieces = true ->
  Split (Text.join (String c "") pieces) c = pieces.
Proof.
  induction pieces as [|p pieces IH]; [congruence|]. intros _ F.
  cbn [forallb] in F. apply andb_true_iff in F. destruct F as [N F].
  apply negb_true_iff in N.
  destruct pieces as [|q pieces].
  - cbn [Text.join]. now apply Split_without_separator.
  - change (Text.join (String c "") (p :: q :: pieces))
      with (p +:+ String c (Text.join (String c "") (q :: pieces))).
    rewrite Split_at_first by exact N. f_equal.
    apply IH; [discriminate | exact F].
Qed.

Lemma drop_at_last_index (s : string) (c : ascii) (i : nat) :
  LastIndexByte s c = Some i -> drop i s = String c (drop (S i) s).
Proof.
  revert i. induction s as [|d s IH]; intros i L; [discriminate L|].
  cbn [LastIndexByte] in L.
  destruct (LastIndexByte s c) as [j|] eqn:E.
  - injection L as <-. cbn [drop]. now apply IH.
  - destruct (Ascii.eqb d c) eqn:D; [|discriminate L].
    injection L as <-. apply Ascii.eqb_eq in D. subst d. reflexivity.
Qed.

Lemma lower_idempotent (c : ascii) : lower (lower c) = lower c.
Proof. destruct c as [[] [] [] [] [] [] [] []]; reflexivity. Qed.

Lemma ToLower_idempotent (s : string) : ToLower (ToLower s) = ToLower s.
Proof.
  induction s as [|c s IH]; [reflexivity|].
  cbn [ToLower]. now rewrite lower_idempotent, IH.
Qed.

Lemma decimal_injective (a b : Z) : Text.decimal a = Text.decimal b -> a = b.
Proof.
  unfold Text.decimal. intros E. apply to_int_inj.
  pose proof (NilEmpty.isi (Z.to_int a)) as A.
  pose proof (NilEmpty.isi (Z.to_int b)) as B.
  rewrite E in A. congruence.
Qed.





Lemma take_length (a : string) : take (String.length a) a = a.
Proof. induction a as [|c a IH]; [reflexivity|]. cbn. now rewrite IH. Qed.








End StringFacts.

(** ** The error example *)

(** C9. [doSomething] returns a non-nil error whose message is
    "unable to do something" on every call; hence every run of [main]
    takes the error branch, writes exactly the line
    "Error: unable to do something" and returns; "Success" is never
    written. *)
Theorem doSomething_always_fails :
  (forall u, ErrorExample.doSomething u = Some "unable to do something") /\
  Go.run ErrorExample.main =
    ([Go.Printed [Go.AString "Error:"; Go.AError (Some "unable to do something")]],
     Go.Returned) /\
  Go.stdout (fst (Go.run ErrorExample.main)) =
    "Error: unable to do something" +:+ Go.newline.
Proof.
  split; [intros []; reflexivity|].
  split; reflexivity.
Qed.

(** ** The two HTTP clients *)

Section Clients.
Import Go Http.

Ltac run_program :=
  unfold Go.run, WebRequest.main, WebServer.main, WebServer.myGetrequest,
         call, Http.Get, Http.ReadAll, mbind, go_bind, bind, mret, go_ret,
         ret, Println, emit, panic, defer; cbn.

(** Every run of the client of [webrequest], by what the network does. *)
Lemma webrequest_run (net : Network) :
  Go.run (WebRequest.main net) =
  match net WebRequest.url with
  | GetFailed err =>
      ([Printed [AString "WebRequest Practice"]; HttpGet WebRequest.url],
       Panicked (AError (Some err)))
  | GetOk response =>
      match Body response with
      | BodyComplete data | BodyBroken data _ =>
          ([Printed [AString "WebRequest Practice"]; HttpGet WebRequest.url;
            Go.ReadAll; Printed [AString "Data%v"; AString data]; CloseBody],
           Returned)
      | BodyPanics v =>
          ([Printed [AString "WebRequest Practice"]; HttpGet WebRequest.url;
            Go.ReadAll],
           Panicked v)
      end
  end.
Proof.
  run_program.
  destruct (net WebRequest.url) as [err|response]; cbn; [reflexivity|].
  destruct (Body response); reflexivity.
Qed.

(** Every run of the client of [webserver], by what the network does. *)
Lemma webserver_run (net : Network) :
  Go.run (WebServer.main net) =
  match net WebServer.myurl with
  | GetFailed err =>
      ([Printed [AString "Local host"]; HttpGet WebServer.myurl],
       Panicked (AError (Some err)))
  | GetOk response =>
      match Body response with
      | BodyComplete data | BodyBroken data _ =>
          ([Printed [AString "Local host"]; HttpGet WebServer.myurl;
            Printed [AString "Status code: "; AInt (StatusCode response)];
            Printed [AString "COntent Length: "; AInt (ContentLength response)];
            Go.ReadAll; Printed [AString data]; CloseBody],
           Returned)
      | BodyPanics v =>
          ([Printed [AString "Local host"]; HttpGet WebServer.myurl;
            Printed [AString "Status code: "; AInt (StatusCode response)];
            Printed [AString "COntent Length: "; AInt (ContentLength response)];
            Go.ReadAll; CloseBody],
           Panicked v)
      end
  end.
Proof.
  run_program.
  destruct (net WebServer.myurl) as [err|response]; cbn; [reflexivity|].
  destruct (Body response); reflexivity.
Qed.

(** C4. When the GET fails at the transport level, each client panics with
    the error of the GET itself; one GET was issued and nothing follows it
    (no second GET, no read, no print, no close).  When the GET succeeds,
    each client goes on to read the body to its end with [ReadAll], and
    when the body arrives whole it prints all of it. *)
Theorem get_failure_is_fatal_success_reads_and_prints (net : Network) :
  (forall err, net WebRequest.url = GetFailed err ->
     Go.run (WebRequest.main net) =
       ([Printed [AString "WebRequest Practice"]; HttpGet WebRequest.url],
        Panicked (AError (Some err)))) /\
  (forall err, net WebServer.myurl = GetFailed err ->
     Go.run (WebServer.main net) =
       ([Printed [AString "Local host"]; HttpGet WebServer.myurl],
        Panicked (AError (Some err)))) /\
  (forall response, net WebRequest.url = GetOk response ->
     exists rest,
       fst (Go.run (WebRequest.main net)) =
         [Printed [AString "WebRequest Practice"]; HttpGet WebRequest.url;
          Go.ReadAll] ++ rest)%list /\
  (forall response, net WebServer.myurl = GetOk response ->
     exists rest,
       fst (Go.run (WebServer.main net)) =
         [Printed [AString "Local host"]; HttpGet WebServer.myurl;
          Printed [AString "Status code: "; AInt (StatusCode response)];
          Printed [AString "COntent Length: "; AInt (ContentLength response)];
          Go.ReadAll] ++ rest)%list /\
  (forall response content,
     net WebRequest.url = GetOk response ->
     Body response = BodyComplete content ->
     Go.run (WebRequest.main net) =
       ([Printed [AString "WebRequest Practice"]; HttpGet WebRequest.url;
         Go.ReadAll; Printed [AString "Data%v"; AString content]; CloseBody],
        Returned)) /\
  (forall response content,
     net WebServer.myurl = GetOk response ->
     Body response = BodyComplete content ->
     Go.run (WebServer.main net) =
       ([Printed [AString "Local host"]; HttpGet WebServer.myurl;
         Printed [AString "Status code: "; AInt (StatusCode response)];
         Printed [AString "COntent Length: "; AInt (ContentLength response)];
         Go.ReadAll; Printed [AString content]; CloseBody],
        Returned)).
Proof.
  split; [intros err E; rewrite webrequest_run, E; reflexivity|].
  split; [intros err E; rewrite webserver_run, E; reflexivity|].
  split.
  { intros response E. rewrite webrequest_run, E.
    destruct (Body response); cbn [fst]; eexists; reflexivity. }
  split.
  { intros response E. rewrite webserver_run, E.
    destruct (Body response); cbn [fst]; eexists; reflexivity. }
  split.
  - intros response content E B. rewrite webrequest_run, E, B. reflexivity.
  - intros response content E B. rewrite webserver_run, E, B. reflexivity.
Qed.

(** C10. Neither client looks at the error that reading the body returns:
    when the read fails part-way after a successful GET, each client
    prints the bytes received so far, closes the body and returns
    normally. *)
Theorem body_read_error_is_ignored (net : Network) :
  (forall response received err,
     net WebRequest.url = GetOk response ->
     Body response = BodyBroken received err ->
     Go.run (WebRequest.main net) =
       ([Printed [AString "WebRequest Practice"]; HttpGet WebRequest.url;
         Go.ReadAll; Printed [AString "Data%v"; AString received]; CloseBody],
        Returned)) /\
  (forall response received err,
     net WebServer.myurl = GetOk response ->
     Body response = BodyBroken received err ->
     Go.run (WebServer.main net) =
       ([Printed [AString "Local host"]; HttpGet WebServer.myurl;
         Printed [AString "Status code: "; AInt (StatusCode response)];
         Printed [AString "COntent Length: "; AInt (ContentLength response)];
         Go.ReadAll; Printed [AString received]; CloseBody],
        Returned)).
Proof.
  split.
  - intros response received err E B. rewrite webrequest_run, E, B. reflexivity.
  - intros response received err E B. rewrite webserver_run, E, B. reflexivity.
Qed.

Lemma append_empty_r (s : string) : s +:+ "" = s.
Proof.
  induction s as [|c s IH]; [reflexivity|].
  change (String c (s +:+ "") = String c s). now f_equal.
Qed.

(** C7. In every run of the client of [webrequest] in which the GET
    succeeds and the read returns, standard output is the banner line and
    then the line made of [Data%v], with the two characters [%v] as they
    stand in the source, one space, and the bytes read. *)
Theorem println_keeps_the_verb_literally (net : Network) response data :
  net WebRequest.url = GetOk response ->
  (Body response = BodyComplete data \/
   exists err, Body response = BodyBroken data err) ->
  stdout (fst (Go.run (WebRequest.main net))) =
    "WebRequest Practice" +:+ newline +:+
    ("Data" +:+ "%v" +:+ " " +:+ data +:+ newline).
Proof.
  intros E B. rewrite webrequest_run, E.
  destruct B as [B | [err B]]; rewrite B; cbn [stdout fst];
    rewrite append_empty_r; reflexivity.
Qed.

(** X6. The client of [webserver] registers the close right after the error
    check, so every run in which the GET succeeds ends by closing the
    body, whatever the read does. *)
Lemma webserver_always_closes (net : Network) response :
  net WebServer.myurl = GetOk response ->
  exists evs, fst (Go.run (WebServer.main net)) = (evs ++ [CloseBody])%list.
Proof.
  intros E. rewrite webserver_run, E.
  destruct (Body response); cbn;
    match goal with
    | |- exists evs, ?l = _ => exists (removelast l); reflexivity
    end.
Qed.

(** X7. The client of [webrequest] closes the body in every run in which the
    read returns. *)
Lemma webrequest_closes_when_read_returns (net : Network) response :
  net WebRequest.url = GetOk response ->
  (forall v, Body response <> BodyPanics v) ->
  exists evs, fst (Go.run (WebRequest.main net)) = (evs ++ [CloseBody])%list.
Proof.
  intros E N. rewrite webrequest_run, E.
  destruct (Body response) as [d|d e|v]; cbn;
    [| | now destruct (N v)];
    match goal with
    | |- exists evs, ?l = _ => exists (removelast l); reflexivity
    end.
Qed.

Lemma not_in_close (l : list (Event any)) :
  forallb (fun e => match e with CloseBody => false | _ => true end) l = true ->
  ~ In CloseBody l.
Proof.
  intros F I. rewrite forallb_forall in F. specialize (F _ I). discriminate F.
Qed.


End Clients.

(** The two clients differ only on a body whose [Read] panics, which the
    bodies of the default transport do not do: the client of [webrequest]
    registers the close after the read and the print, so such a run ends
    without closing the body, while the client of [webserver] closes
    it. *)
Example webrequest_does_not_close_when_read_panics :
  Go.run (WebRequest.main Scenario.network_with_panicking_body) =
    ([Go.Printed [Go.AString "WebRequest Practice"]; Go.HttpGet WebRequest.url;
      Go.ReadAll],
     Go.Panicked (Go.AString "read: boom")) /\
  ~ In Go.CloseBody
       (fst (Go.run (WebRequest.main Scenario.network_with_panicking_body))) /\
  In Go.CloseBody
     (fst (Go.run (WebServer.main Scenario.network_with_panicking_body))).
Proof.
  split; [reflexivity|]. split.
  - vm_compute. intros [H|[H|[H|[]]]]; discriminate H.
  - vm_compute. tauto.
Qed.

(** Witness of C4: a network on which nothing listens, and one that
    serves the body. *)
Lemma get_failure_is_fatal_success_reads_and_prints_witness :
  Go.run (WebRequest.main Scenario.network_down) =
    ([Go.Printed [Go.AString "WebRequest Practice"]; Go.HttpGet WebRequest.url],
     Go.Panicked (Go.AError (Some "dial tcp 127.0.0.1:3000: connect: connection refused"))) /\
  Go.run (WebServer.main Scenario.network_down) =
    ([Go.Printed [Go.AString "Local host"]; Go.HttpGet WebServer.myurl],
     Go.Panicked (Go.AError (Some "dial tcp 127.0.0.1:3000: connect: connection refused"))) /\
  Go.run (WebRequest.main Scenario.network_up) =
    ([Go.Printed [Go.AString "WebRequest Practice"]; Go.HttpGet WebRequest.url;
      Go.ReadAll; Go.Printed [Go.AString "Data%v"; Go.AString "Hello from GET!"];
      Go.CloseBody],
     Go.Returned) /\
  Go.run (WebServer.main Scenario.network_up) =
    ([Go.Printed [Go.AString "Local host"]; Go.HttpGet WebServer.myurl;
      Go.Printed [Go.AString "Status code: "; Go.AInt 200];
      Go.Printed [Go.AString "COntent Length: "; Go.AInt 15];
      Go.ReadAll; Go.Printed [Go.AString "Hello from GET!"]; Go.CloseBody],
     Go.Returned).
Proof.
  destruct (get_failure_is_fatal_success_reads_and_prints Scenario.network_down)
    as (D1 & D2 & _).
  destruct (get_failure_is_fatal_success_reads_and_prints Scenario.network_up)
    as (_ & _ & _ & _ & U1 & U2).
  split; [exact (D1 _ eq_refl)|].
  split; [exact (D2 _ eq_refl)|].
  split; [exact (U1 _ _ eq_refl eq_refl) | exact (U2 _ _ eq_refl eq_refl)].
Defined.


(** Witness of C10: the read fails after five bytes. *)
Lemma body_read_error_is_ignored_witness :
  Go.run (WebRequest.main Scenario.network_cut) =
    ([Go.Printed [Go.AString "WebRequest Practice"]; Go.HttpGet WebRequest.url;
      Go.ReadAll; Go.Printed [Go.AString "Data%v"; Go.AString "Hello"];
      Go.CloseBody],
     Go.Returned) /\
  Go.run (WebServer.main Scenario.network_cut) =
    ([Go.Printed [Go.AString "Local host"]; Go.HttpGet WebServer.myurl;
      Go.Printed [Go.AString "Status code: "; Go.AInt 200];
      Go.Printed [Go.AString "COntent Length: "; Go.AInt 15];
      Go.ReadAll; Go.Printed [Go.AString "Hello"]; Go.CloseBody],
     Go.Returned).
Proof.
  destruct (body_read_error_is_ignored Scenario.network_cut) as (R1 & R2).
  split.
  - exact (R1 _ _ _ eq_refl eq_refl).
  - exact (R2 _ _ _ eq_refl eq_refl).
Defined.

(** Witness of C7: the body "Hello from GET!" arrives whole. *)
Lemma println_keeps_the_verb_literally_witness :
  Go.stdout (fst (Go.run (WebRequest.main Scenario.network_up))) =
    "WebRequest Practice" +:+ Go.newline +:+
    ("Data" +:+ "%v" +:+ " " +:+ "Hello from GET!" +:+ Go.newline).
Proof.
  apply (println_keeps_the_verb_literally Scenario.network_up
           (Http.mkResponse 200 15 (Http.BodyComplete "Hello from GET!"))
           "Hello from GET!").
  - reflexivity.
  - left. reflexivity.
Defined.

(** ** The URL demonstration *)

Section UrlProperties.
Import Go Strings NetUrl UrlDemo Observe.

(** The keys of a query mapping are pairwise distinct. *)
Lemma Query_keys_unique (u : URL) : NoDup (map_to_list (Query u)).*1.
Proof. apply NoDup_fst_map_to_list. Qed.

(** C3. Parsing "https://host.example/path?x=1&x=2" succeeds with scheme
    "https", host "host.example" and path "/path"; the query mapping, a
    finite map from keys to lists of strings, has pairwise distinct keys
    and is exactly the one that sends "x" to the list "1", "2" in that
    order; the program prints these components and returns. *)
Theorem example_url_decomposition :
  exists u : URL,
    Parse Scenario.example_url = inr u /\
    Scheme u = "https" /\
    Host u = "host.example" /\
    Path u = "/path" /\
    Query u !! "x" = Some ["1"; "2"] /\
    Query u = {["x" := ["1"; "2"]]} /\
    NoDup (map_to_list (Query u)).*1 /\
    Go.run (parse_and_print Scenario.example_url) =
      ([Printed [VString "Welcome to urls in Golang"];
        Printed [VString "https"];
        Printed [VString "host.example"];
        Printed [VString "/path"];
        Printed [VUser None];
        Printed [VString "x=1&x=2"];
        Printed [VString ""];
        Printed [VValues {["x" := ["1"; "2"]]}]],
       Returned).
Proof.
  eexists. split; [vm_compute; reflexivity|].
  repeat (split; [vm_compute; reflexivity|]).
  split; [apply NoDup_fst_map_to_list|].
  vm_compute. reflexivity.
Qed.















End UrlProperties.

(** The run of [main] itself, on the constant of the source: the URL is
    accepted, so the program prints its components and returns. *)
Example main_decomposes_myurl :
  exists u,
    NetUrl.Parse UrlDemo.myurl = inr u /\
    NetUrl.Scheme u = "https" /\
    NetUrl.Host u = "www.fiverr.com" /\
    NetUrl.Path u =
      "/ut_works/develop-a-game-prototype-in-unreal-engine-using-blueprints-and-cpp" /\
    NetUrl.User u = None /\
    NetUrl.Port u = "" /\
    size (NetUrl.Query u) = 8%nat /\
    NetUrl.Query u !! "pos" = Some ["1"] /\
    snd (NetUrl.ParseQuery (NetUrl.RawQuery u)) = None /\
    snd (Go.run UrlDemo.main) = Go.Returned.
Proof.
  eexists. split; [vm_compute; reflexivity|].
  repeat (split; [vm_compute; reflexivity|]).
  vm_compute. reflexivity.
Qed.



(** ** The texts of [JSON.stringify] *)

Section JsonFacts.
Import JS Json.
Context {Number : Type} `{NumberOps Number}.

(** What [QuoteJSONString] writes between the quotes reads back as the
    string. *)
Lemma chars_quote_chars (s : string) : chars (quote_chars s) = Some s.
Proof.
  induction s as [|c s IH]; [reflexivity|].
  cbn [quote_chars].
  destruct c as [[] [] [] [] [] [] [] []];
    match goal with
    | |- context [quote_char ?c] =>
        let q := eval vm_compute in (quote_char c) in
        change (quote_char c) with q
    end;
    cbv beta iota fix delta [String.append];
    cbn [chars Ascii.eqb Bool.eqb andb orb]; 
    try (rewrite IH; reflexivity).
  all: cbn; rewrite IH; reflexivity.
Qed.

(** Induction on a value, with the property at hand for the elements of
    an array and for the values of the properties of an object. *)
Lemma Value_nested_ind (P : Value Number -> Prop) :
  P Undefined -> P Null -> (forall b, P (Boolean b)) -> (forall n, P (Num n)) ->
  (forall s, P (Str s)) ->
  (forall elements, Forall P elements -> P (Array elements)) ->
  (forall properties, Forall (fun p => P (snd p)) properties -> P (Object properties)) ->
  forall v, P v.
Proof.
  intros U N B M S A O. fix IH 1. intros [| |b|n|s|elements|properties].
  - exact U.
  - exact N.
  - apply B.
  - apply M.
  - apply S.
  - apply A. induction elements as [|e elements IHe]; constructor; [apply IH | exact IHe].
  - apply O. induction properties as [|[k v] properties IHp]; constructor;
      [apply IH | exact IHp].
Qed.

(** The text [JSON.stringify] gives for a value that [JSON.parse] can
    have built is a JSON text of that value. *)
Lemma JSON_stringify_denotes (v : Value Number) :
  parsed v = true ->
  exists text, JSON_stringify v = Some text /\ denotes text v.
Proof.
  induction v as [| |b|n|s|elements IH|properties IH] using Value_nested_ind;
    intros C.
  - discriminate C.
  - eexists; split; [reflexivity | constructor].
  - destruct b; eexists; (split; [reflexivity | constructor]).
  - cbn [parsed] in C. cbn [JSON_stringify]. rewrite C.
    eexists; split; [reflexivity | now constructor].
  - eexists; split; [reflexivity|]. constructor. apply chars_quote_chars.
  - cbn [JSON_stringify]. eexists; split; [reflexivity|].
    destruct elements as [|e elements]; [exact denotes_empty_array|].
    constructor. cbn [parsed] in C.
    revert e IH C. induction elements as [|e' elements IHl]; intros e IH C.
    + apply Forall_inv in IH. cbn [forallb] in C. rewrite andb_true_r in C.
      destruct (IH C) as (text & E & D). cbn [map Text.join]. rewrite E.
      cbn [default]. now constructor.
    + pose proof (Forall_inv IH) as He. apply Forall_inv_tail in IH.
      cbn [forallb] in C. apply andb_true_iff in C. destruct C as [Ce C].
      destruct (He Ce) as (text & E & D).
      change (Text.join "," (map (fun e => default "null" (JSON_stringify e))
                                 (e :: e' :: elements)))
        with (default "null" (JSON_stringify e) +:+ "," +:+
              Text.join "," (map (fun e => default "null" (JSON_stringify e))
                                 (e' :: elements))).
      rewrite E. cbn [default]. constructor; [exact D|].
      apply IHl; assumption.
  - cbn [JSON_stringify]. eexists; split; [reflexivity|].
    destruct properties as [|[k v] properties]; [exact denotes_empty_object|].
    constructor. cbn [parsed] in C.
    revert k v IH C. induction properties as [|[k' v'] properties IHl];
      intros k v IH C.
    + apply Forall_inv in IH. cbn [forallb snd] in C. rewrite andb_true_r in C.
      cbn [snd] in IH. destruct (IH C) as (text & E & D). rewrite E.
      cbn [Text.join]. unfold QuoteJSONString. rewrite !append_assoc.
      constructor; [apply chars_quote_chars | exact D].
    + pose proof (Forall_inv IH) as Hv. apply Forall_inv_tail in IH.
      cbn [forallb snd] in C. apply andb_true_iff in C. destruct C as [Cv C].
      cbn [snd] in Hv. destruct (Hv Cv) as (text & E & D).
      rewrite E.
      specialize (IHl k' v' IH C).
      pose proof (Forall_inv IH) as Hv'. cbn [snd] in Hv'.
      cbn [forallb snd] in C. apply andb_true_iff in C. destruct C as [Cv' C].
      destruct (Hv' Cv') as (text' & E' & D').
      rewrite E' in IHl |- *.
      cbn [Text.join] in IHl |- *.
      unfold QuoteJSONString. rewrite !append_assoc.
      constructor; [apply chars_quote_chars | exact D |].
      unfold QuoteJSONString in IHl. rewrite !append_assoc in IHl. exact IHl.
Qed.

End JsonFacts.

Section JsonExamples.
Import JS.

(** [Json.chars] reads every escape of the grammar and refuses what the
    grammar refuses between the quotes: a control character or a quote
    that is not escaped, an unknown escape letter, an incomplete escape. *)
Example chars_follows_the_grammar :
  Json.chars "\u0041\/\b\f\n\r\t\\" =
    Some (String "A" (String "/" (String (ascii_of_nat 8) (String (ascii_of_nat 12)
      (String (ascii_of_nat 10) (String (ascii_of_nat 13) (String (ascii_of_nat 9)
        "\"))))))) /\
  Json.chars ("\" +:+ JS.dquote) = Some JS.dquote /\
  Json.chars (String (ascii_of_nat 10) "") = None /\
  Json.chars (String (ascii_of_nat 31) "") = None /\
  Json.chars JS.dquote = None /\
  Json.chars "\x" = None /\
  Json.chars "\" = None /\
  Json.chars "\u004" = None /\
  Json.chars "\u00zz" = None /\
  Json.chars "\u0080" = None /\
  Json.chars "\u0141" = None.
Proof. repeat split; reflexivity. Qed.

(** What [JSON.stringify] does with the values that have no JSON text: a
    number that is not finite becomes [null]; [undefined] becomes [null]
    in an array, and a property whose value is [undefined] is left out;
    for [undefined] itself there is no text. *)
Example JSON_stringify_without_a_JSON_text :
  JS.JSON_stringify
    (JS.Object [("n", JS.Num JS.PlusInfinity);
                ("u", JS.Undefined);
                ("l", JS.Array [JS.Undefined; JS.Num JS.NaN;
                                JS.Num (JS.Finite JS.one)]);
                ("m", JS.Num JS.MinusInfinity)])
  = Some ("{" +:+ JS.dquote +:+ "n" +:+ JS.dquote +:+ ":null,"
          +:+ JS.dquote +:+ "l" +:+ JS.dquote +:+ ":[null,null,1],"
          +:+ JS.dquote +:+ "m" +:+ JS.dquote +:+ ":null}") /\
  JS.JSON_stringify (JS.Undefined : JS.Value JS.ExtendedInteger) = None /\
  JS.JSON_stringify (JS.Array [JS.Num JS.NaN]) = Some "[null]" /\
  JS.JSON_stringify (JS.Object [("u", JS.Undefined : JS.Value JS.ExtendedInteger)])
  = Some "{}".
Proof. repeat split; reflexivity. Qed.

End JsonExamples.

(** ** The Express server *)

Section ServerProperties.
Import JS Express.
Context {Number : Type} `{NumberOps Number}.

Lemma path_matches_names_route (route_path request_path : string) :
  Strings.ToLower route_path = route_path ->
  path_matches route_path request_path = true <->
  names_route route_path request_path.
Proof.
  intros L. unfold path_matches, names_route. rewrite L.
  rewrite orb_true_iff, !String.eqb_eq. reflexivity.
Qed.

Lemma not_both_routes (request_path : string) :
  path_matches "/get" request_path = true ->
  path_matches "/post" request_path = true -> False.
Proof.
  intros G P.
  apply path_matches_names_route in G; [|reflexivity].
  apply path_matches_names_route in P; [|reflexivity].
  destruct G as [G|G], P as [P|P]; rewrite G in P; discriminate P.
Qed.

(** The answer to every request, by cases. *)
Lemma respond_cases (r : Request Number) :
  respond r =
  match json r with
  | Rejected status => DefaultError status
  | Parsed b =>
      if path_matches "/get" (path r) then
        match method r with
        | GET | HEAD => FromHandler (get_handler (mkReq r b) fresh_res)
        | OPTIONS => AutomaticOptions [GET; HEAD]
        | _ => DefaultNotFound
        end
      else if path_matches "/post" (path r) then
        match method r with
        | POST => FromHandler (post_handler (mkReq r b) fresh_res)
        | OPTIONS => AutomaticOptions [POST]
        | _ => DefaultNotFound
        end
      else DefaultNotFound
  end.
Proof.
  unfold respond, app. cbn [handle]. unfold express_json. cbn [request].
  destruct (json r) as [b|status]; [|reflexivity]. cbn [request].
  destruct (path_matches "/get" (path r)) eqn:G.
  - destruct (path_matches "/post" (path r)) eqn:P.
    + destruct (not_both_routes _ G P).
    + destruct (method r); reflexivity.
  - destruct (path_matches "/post" (path r)); destruct (method r); reflexivity.
Qed.

(** The status [res.send] leaves: 304 exactly when the status was 304
    already or the request is a GET or HEAD request, the status is one of
    the 2xx and the validators match; the status it found otherwise.  The
    body is empty for a HEAD request and for the statuses 204, 205 and
    304, and the text in every other case. *)
Lemma send_outcome (req : Req Number) (res : Res) (text : string) :
  (statusCode (send req res text) = 304%nat <->
   statusCode res = 304%nat \/
   ((method (request req) = GET \/ method (request req) = HEAD) /\
    (200 <= statusCode res < 300)%nat /\
    validators_match (request req) text = true)) /\
  (statusCode (send req res text) <> 304%nat ->
   statusCode (send req res text) = statusCode res) /\
  sent (send req res text) =
    Some (if Method_eqb (method (request req)) HEAD then ""
          else if (statusCode (send req res text) =? 204)%nat
                  || (statusCode (send req res text) =? 304)%nat
                  || (statusCode (send req res text) =? 205)%nat
               then "" else text).
Proof.
  unfold send, fresh. cbn [statusCode sent].
  split; [|split; [|reflexivity]].
  - destruct (validators_match (request req) text);
      destruct (method (request req)); cbn [Method_eqb orb andb];
      rewrite ?andb_true_r, ?andb_false_r;
      try (destruct (((200 <=? statusCode res)%nat && (statusCode res <? 300)%nat)
                     || (statusCode res =? 304)%nat) eqn:S;
           [apply orb_true_iff in S; rewrite andb_true_iff in S;
            rewrite Nat.leb_le, Nat.ltb_lt, Nat.eqb_eq in S
           |apply orb_false_iff in S; rewrite andb_false_iff in S;
            rewrite Nat.leb_gt, Nat.ltb_ge, Nat.eqb_neq in S]);
      split; intros X; try lia; try tauto;
      repeat match goal with
             | X : _ \/ _ |- _ => destruct X as [X|X]
             | X : _ /\ _ |- _ => destruct X
             end; try lia; try discriminate; try tauto.
  - destruct (fresh req res text) eqn:F; unfold fresh in F; rewrite F;
      [intros X; now destruct X | reflexivity].
Qed.

(** What [res.send] makes of a response that is still as Express created
    it: status 304 and no body for a GET or HEAD request whose validators
    match the text, status 200 otherwise, with the text as body unless
    the request is a HEAD request. *)
Lemma send_first (req : Req Number) (text : string) :
  send req fresh_res text =
  match method (request req) with
  | GET =>
      if validators_match (request req) text
      then mkRes 304 (Some "") else mkRes 200 (Some text)
  | HEAD =>
      if validators_match (request req) text
      then mkRes 304 (Some "") else mkRes 200 (Some "")
  | _ => mkRes 200 (Some text)
  end.
Proof.
  unfold send, fresh, fresh_res. cbn [statusCode].
  destruct (method (request req)); cbn;
    try reflexivity; destruct (validators_match (request req) text); reflexivity.
Qed.

(** C1, as the code has it. Take a request with method GET and path /get
    that the JSON body parser hands on.  When its validators do not match
    the text "Hello from GET!" (so for every request without conditional
    headers) it is answered with status 200 and exactly that body; when
    they do, with status 304 and an empty body. *)
Theorem get_route_says_hello (r : Request Number) (b : Value Number) :
  method r = GET ->
  path r = "/get" ->
  json r = Parsed b ->
  respond r =
    FromHandler (if validators_match r "Hello from GET!"
                 then mkRes 304 (Some "")
                 else mkRes 200 (Some "Hello from GET!")).
Proof.
  intros M P J. rewrite respond_cases, J, P, M.
  change (path_matches "/get" "/get") with true. cbv iota.
  unfold get_handler. rewrite send_first. cbn [request]. rewrite M. reflexivity.
Qed.

(** C2, as the code has it. Take a request with method POST and path
    /post.  When the JSON body parser has parsed its body to an object,
    the request is answered with status 200 and the body
    "Received data: " followed by the text [JSON.stringify] gives for that
    object; that text is a JSON text of the object, provided the numbers
    in it are finite.  When the JSON body parser rejects the request, it
    is answered by the default error answer with the parser's status, and
    not by the handler. *)
Theorem post_route_echoes_json (r : Request Number) :
  method r = POST ->
  path r = "/post" ->
  (forall properties,
     json r = Parsed (Object properties) ->
     exists text,
       JSON_stringify (Object properties) = Some text /\
       respond r = FromHandler (mkRes 200 (Some ("Received data: " +:+ text))) /\
       (Json.parsed (Object properties) = true ->
        Json.denotes text (Object properties))) /\
  (forall status,
     json r = Rejected status -> respond r = DefaultError status).
Proof.
  intros M P. split.
  - intros properties J. eexists. split; [reflexivity|]. split.
    + rewrite respond_cases, J, P, M.
      change (path_matches "/get" "/post") with false.
      change (path_matches "/post" "/post") with true. cbv iota.
      unfold post_handler. rewrite send_first. cbn [request body]. rewrite M.
      reflexivity.
    + intros C. destruct (JSON_stringify_denotes _ C) as (text & E & D).
      cbn [JSON_stringify] in E. injection E as <-. exact D.
  - intros status J. rewrite respond_cases, J. reflexivity.
Qed.

(** C8, as the code has it. Two routes are registered, (GET, /get) and
    (POST, /post).  A request that the JSON body parser rejects gets the
    default error answer.  A request it hands on is answered by the GET
    handler when its path is /get, up to letter case and a trailing
    slash, and its method is GET or HEAD; by the POST handler when its
    path is /post, likewise, and its method is POST; by the automatic
    answer when it is an OPTIONS request for one of these paths; and by
    the default "not found" in every other case. *)
Theorem handlers_answer_matching_requests_only (r : Request Number) :
  routes (@app Number _) = [(GET, "/get"); (POST, "/post")] /\
  (forall status, json r = Rejected status -> respond r = DefaultError status) /\
  (forall b, json r = Parsed b ->
     (names_route "/get" (path r) -> method r = GET \/ method r = HEAD ->
      respond r = FromHandler (get_handler (mkReq r b) fresh_res)) /\
     (names_route "/post" (path r) -> method r = POST ->
      respond r = FromHandler (post_handler (mkReq r b) fresh_res)) /\
     (names_route "/get" (path r) -> method r = OPTIONS ->
      respond r = AutomaticOptions [GET; HEAD]) /\
     (names_route "/post" (path r) -> method r = OPTIONS ->
      respond r = AutomaticOptions [POST]) /\
     (~ (names_route "/get" (path r) /\
         (method r = GET \/ method r = HEAD \/ method r = OPTIONS)) ->
      ~ (names_route "/post" (path r) /\
         (method r = POST \/ method r = OPTIONS)) ->
      respond r = DefaultNotFound)).
Proof.
  split; [reflexivity|].
  split; [intros status J; now rewrite respond_cases, J|].
  intros b J. rewrite respond_cases, J.
  pose proof (path_matches_names_route "/get" (path r) eq_refl) as G.
  pose proof (path_matches_names_route "/post" (path r) eq_refl) as P.
  pose proof (not_both_routes (path r)) as NB.
  destruct (path_matches "/get" (path r)), (path_matches "/post" (path r));
    try (destruct (NB eq_refl eq_refl)).
  - assert (names_route "/get" (path r)) as YG by now apply G.
    assert (~ names_route "/post" (path r)) as NP
        by (intros X; apply P in X; discriminate X).
    repeat split.
    + intros _ [M|M]; now rewrite M.
    + intros X; now destruct (NP X).
    + intros _ M; now rewrite M.
    + intros X; now destruct (NP X).
    + intros N1 _. destruct (method r); try reflexivity;
        exfalso; apply N1; split; auto.
  - assert (names_route "/post" (path r)) as YP by now apply P.
    assert (~ names_route "/get" (path r)) as NG
        by (intros X; apply G in X; discriminate X).
    repeat split.
    + intros X; now destruct (NG X).
    + intros _ M; now rewrite M.
    + intros X; now destruct (NG X).
    + intros _ M; now rewrite M.
    + intros _ N2. destruct (method r); try reflexivity;
        exfalso; apply N2; split; auto.
  - assert (~ names_route "/get" (path r)) as NG
        by (intros X; apply G in X; discriminate X).
    assert (~ names_route "/post" (path r)) as NP
        by (intros X; apply P in X; discriminate X).
    repeat split; try (intros X; now destruct (NG X));
      try (intros X; now destruct (NP X)).
Qed.

End ServerProperties.

Section ServerExamples.
Import JS.

(** Witness of C1 as amended: [GET /get] without conditional headers,
    and [GET /get] with [If-None-Match: *]. *)
Lemma get_route_says_hello_witness :
  Express.respond Scenario.plain_get =
    Express.FromHandler (Express.mkRes 200 (Some "Hello from GET!")) /\
  Express.respond Scenario.conditional_get =
    Express.FromHandler (Express.mkRes 304 (Some "")).
Proof.
  split.
  - exact (get_route_says_hello Scenario.plain_get (JS.Object [])
             eq_refl eq_refl eq_refl).
  - exact (get_route_says_hello Scenario.conditional_get (JS.Object [])
             eq_refl eq_refl eq_refl).
Defined.

(** C1, as stated, fails: a request with method GET and path /get whose
    body the JSON body parser rejects is answered by the default error
    answer with status 400, not by the handler. *)
Lemma get_with_malformed_body_is_rejected :
  Express.method Scenario.get_with_malformed_body = Express.GET /\
  Express.path Scenario.get_with_malformed_body = "/get" /\
  Express.respond Scenario.get_with_malformed_body = Express.DefaultError 400 /\
  Express.respond Scenario.get_with_malformed_body <>
    Express.FromHandler (Express.mkRes 200 (Some "Hello from GET!")).
Proof.
  repeat (split; [reflexivity|]). discriminate.
Qed.

(** Witness of C2 as amended: the body of the specification's example,
    an object whose member [a] is 1, comes back as its JSON text; so does
    an object with a quoted key, escaped characters and nested values;
    and a body the parser rejects with 413 gets the default error. *)
Lemma post_route_echoes_json_witness :
  (Express.respond Scenario.post_a1 =
     Express.FromHandler
       (Express.mkRes 200
          (Some ("Received data: {" +:+ JS.dquote +:+ "a" +:+ JS.dquote +:+ ":1}"))) /\
   Json.denotes ("{" +:+ JS.dquote +:+ "a" +:+ JS.dquote +:+ ":1}")
                (JS.Object [("a", JS.Num JS.one)])) /\
  (Express.respond Scenario.post_awkward =
     Express.FromHandler
       (Express.mkRes 200 (Some ("Received data: " +:+ Scenario.awkward_json))) /\
   Json.denotes Scenario.awkward_json Scenario.awkward_body) /\
  Express.respond Scenario.post_too_large = Express.DefaultError 413.
Proof.
  split.
  { destruct (post_route_echoes_json Scenario.post_a1 eq_refl eq_refl) as [E _].
    destruct (E _ eq_refl) as (text & T & R & D).
    vm_compute in T. injection T as <-. split; [exact R | exact (D eq_refl)]. }
  split.
  { destruct (post_route_echoes_json Scenario.post_awkward eq_refl eq_refl) as [E _].
    destruct (E _ eq_refl) as (text & T & R & D).
    vm_compute in T. injection T as <-. split; [exact R | exact (D eq_refl)]. }
  { destruct (post_route_echoes_json Scenario.post_too_large eq_refl eq_refl) as [_ E].
    exact (E 413%nat eq_refl). }
Defined.

(** C2, as stated, fails: a request with method POST and path /post that
    carries a JSON object longer than the body parser accepts is answered
    by the default error answer with status 413; no handler answers it
    and nothing is echoed. *)
Lemma post_with_oversized_body_is_rejected :
  Express.method Scenario.post_too_large = Express.POST /\
  Express.path Scenario.post_too_large = "/post" /\
  Express.respond Scenario.post_too_large = Express.DefaultError 413 /\
  ~ (exists res, Express.respond Scenario.post_too_large = Express.FromHandler res).
Proof.
  repeat (split; [reflexivity|]). intros [res R]. discriminate R.
Qed.

(** C8, as stated, fails: the pair (GET, /get/) is neither (GET, /get)
    nor (POST, /post), and the request is answered by the GET handler. *)
Lemma trailing_slash_reaches_get_handler :
  (Express.method Scenario.get_trailing_slash, Express.path Scenario.get_trailing_slash)
    <> (Express.GET, "/get") /\
  (Express.method Scenario.get_trailing_slash, Express.path Scenario.get_trailing_slash)
    <> (Express.POST, "/post") /\
  Express.respond Scenario.get_trailing_slash =
    Express.FromHandler (Express.mkRes 200 (Some "Hello from GET!")) /\
  Express.respond Scenario.get_trailing_slash <> Express.DefaultNotFound.
Proof.
  split; [discriminate|]. split; [discriminate|].
  split; [reflexivity|discriminate].
Qed.

(** Two more requests that reach the GET handler: the path in capitals,
    and a HEAD request, whose answer carries no body. *)
Example capitals_reach_get_handler :
  Express.respond
    (Express.mkRequest Express.GET "/GET" (Express.Parsed (JS.Object []))
       Express.unconditional : Express.Request JS.SafeInteger)
  = Express.FromHandler (Express.mkRes 200 (Some "Hello from GET!")).
Proof. reflexivity. Qed.

Example head_reaches_get_handler :
  Express.respond Scenario.head_get = Express.FromHandler (Express.mkRes 200 (Some "")).
Proof. reflexivity. Qed.

(** A HEAD request with [If-None-Match: *] gets 304, and a POST request
    with the same header is answered as without it. *)
Example conditional_head_and_post :
  Express.respond
    (Express.mkRequest Express.HEAD "/get" (Express.Parsed (JS.Object []))
       Express.if_none_match_any : Express.Request JS.SafeInteger)
  = Express.FromHandler (Express.mkRes 304 (Some "")) /\
  Express.respond
    (Express.mkRequest Express.POST "/post" (Express.Parsed (JS.Object []))
       Express.if_none_match_any : Express.Request JS.SafeInteger)
  = Express.FromHandler (Express.mkRes 200 (Some "Received data: {}")).
Proof. split; reflexivity. Qed.

(** Witness of C8 as amended: one request for each case. *)
Lemma handlers_answer_matching_requests_only_witness :
  Express.respond Scenario.get_with_malformed_body = Express.DefaultError 400 /\
  Express.respond Scenario.head_get =
    Express.FromHandler (Express.mkRes 200 (Some "")) /\
  Express.respond Scenario.post_a1 =
    Express.FromHandler
      (Express.post_handler
         (Express.mkReq Scenario.post_a1 (JS.Object [("a", JS.Num JS.one)]))
         Express.fresh_res) /\
  Express.respond Scenario.options_post = Express.AutomaticOptions [Express.POST] /\
  Express.respond Scenario.delete_other = Express.DefaultNotFound.
Proof.
  split.
  { destruct (handlers_answer_matching_requests_only Scenario.get_with_malformed_body)
      as (_ & E & _).
    exact (E 400%nat eq_refl). }
  split.
  { destruct (handlers_answer_matching_requests_only Scenario.head_get)
      as (_ & _ & P).
    destruct (P (JS.Object []) eq_refl) as (G & _).
    apply G; [left; reflexivity | right; reflexivity]. }
  split.
  { destruct (handlers_answer_matching_requests_only Scenario.post_a1)
      as (_ & _ & P).
    destruct (P (JS.Object [("a", JS.Num JS.one)]) eq_refl) as (_ & G & _).
    apply G; [left; reflexivity | reflexivity]. }
  split.
  { destruct (handlers_answer_matching_requests_only Scenario.options_post)
      as (_ & _ & P).
    destruct (P (JS.Object []) eq_refl) as (_ & _ & _ & G & _).
    apply G; [left; reflexivity | reflexivity]. }
  { destruct (handlers_answer_matching_requests_only Scenario.delete_other)
      as (_ & _ & P).
    destruct (P (JS.Object []) eq_refl) as (_ & _ & _ & _ & G).
    apply G; intros [[X|X] _]; discriminate X. }
Defined.

End ServerExamples.

(** * Further properties *)

(** ** More on the two HTTP clients *)

Section ClientExtras.
Import Go Http Observe.

(** X2. In every run of either client the body is closed at most once,
    only as the last action of the run, and only after the read; a run in
    which the GET failed closes nothing. *)
Theorem close_comes_last_and_after_the_read (net : Network) :
  closes_last_after_read (fst (Go.run (WebRequest.main net))) /\
  closes_last_after_read (fst (Go.run (WebServer.main net))) /\
  (forall err, net WebRequest.url = GetFailed err ->
     ~ In CloseBody (fst (Go.run (WebRequest.main net)))) /\
  (forall err, net WebServer.myurl = GetFailed err ->
     ~ In CloseBody (fst (Go.run (WebServer.main net)))).
Proof.
  rewrite webrequest_run, webserver_run. unfold closes_last_after_read.
  split; [|split; [|split]].
  - destruct (net WebRequest.url) as [e|r].
    + cbn. intros [H|[H|[]]]; discriminate H.
    + destruct (Body r); cbn [fst]; intros I.
      1,2: match goal with |- exists b, ?l = _ /\ _ => exists (removelast l) end;
        (split; [reflexivity|]);
        (split; [apply not_in_close; reflexivity | cbn; tauto]).
      exfalso. revert I. apply not_in_close. reflexivity.
  - destruct (net WebServer.myurl) as [e|r].
    + cbn. intros [H|[H|[]]]; discriminate H.
    + destruct (Body r); cbn [fst]; intros I;
        match goal with |- exists b, ?l = _ /\ _ => exists (removelast l) end;
        (split; [reflexivity|]);
        (split; [apply not_in_close; reflexivity | cbn; tauto]).
  - intros err E. rewrite E. apply not_in_close. reflexivity.
  - intros err E. rewrite E. apply not_in_close. reflexivity.
Qed.

(** X3. A run of the client of [webrequest] in which the GET succeeds is
    determined by the bytes the read returns: the status code, the content
    length and the error of the read have no influence on what is printed
    or on how the process ends. *)
Theorem webrequest_run_depends_on_the_bytes_read_only
  (net1 net2 : Network) (r1 r2 : Response) (data : string) :
  net1 WebRequest.url = GetOk r1 ->
  net2 WebRequest.url = GetOk r2 ->
  read_returns (Body r1) data ->
  read_returns (Body r2) data ->
  Go.run (WebRequest.main net1) = Go.run (WebRequest.main net2).
Proof.
  intros E1 E2 R1 R2. rewrite !webrequest_run, E1, E2.
  destruct R1 as [R1|[e1 R1]], R2 as [R2|[e2 R2]]; rewrite R1, R2; reflexivity.
Qed.

(** X4. Each client returns normally exactly when the GET succeeds and
    the read returns; so the only fatal events are a failed GET and a
    panic inside the read, and no status code is one. *)
Theorem clients_return_unless_get_fails_or_read_panics (net : Network) :
  (snd (Go.run (WebRequest.main net)) = Returned <->
   exists r data, net WebRequest.url = GetOk r /\ read_returns (Body r) data) /\
  (snd (Go.run (WebServer.main net)) = Returned <->
   exists r data, net WebServer.myurl = GetOk r /\ read_returns (Body r) data).
Proof.
  rewrite webrequest_run, webserver_run. unfold read_returns. split.
  - destruct (net WebRequest.url) as [e|r].
    + split; [discriminate|]. intros (r & d & E & _). discriminate E.
    + destruct (Body r) as [d|d e|v] eqn:B; cbn [snd].
      * split; [|reflexivity]. intros _. exists r, d. rewrite B. auto.
      * split; [|reflexivity]. intros _. exists r, d. rewrite B. eauto.
      * split; [discriminate|]. intros (r' & d & E & R). injection E as <-.
        rewrite B in R. destruct R as [R|[e R]]; discriminate R.
  - destruct (net WebServer.myurl) as [e|r].
    + split; [discriminate|]. intros (r & d & E & _). discriminate E.
    + destruct (Body r) as [d|d e|v] eqn:B; cbn [snd].
      * split; [|reflexivity]. intros _. exists r, d. rewrite B. auto.
      * split; [|reflexivity]. intros _. exists r, d. rewrite B. eauto.
      * split; [discriminate|]. intros (r' & d & E & R). injection E as <-.
        rewrite B in R. destruct R as [R|[e R]]; discriminate R.
Qed.

(** X5. When the GET succeeds and the read returns, the client of
    [webserver] writes four lines: the banner; "Status code: ", a second
    space and the status in decimal; "COntent Length: ", a second space
    and the length in decimal (negative when unknown); and the bytes
    read. *)
Theorem webserver_prints_status_length_body (net : Network) r data :
  net WebServer.myurl = GetOk r ->
  read_returns (Body r) data ->
  stdout (fst (Go.run (WebServer.main net))) =
    "Local host" +:+ newline +:+
    ("Status code: " +:+ " " +:+ Text.decimal (StatusCode r) +:+ newline) +:+
    ("COntent Length: " +:+ " " +:+ Text.decimal (ContentLength r) +:+ newline) +:+
    (data +:+ newline).
Proof.
  intros E R. rewrite webserver_run, E.
  destruct R as [R|[e R]]; rewrite R; cbn [stdout fst];
    rewrite append_empty_r; unfold Sprintln; cbn [map Sprint Text.join].
  all: rewrite !append_assoc; reflexivity.
Qed.

End ClientExtras.

(** Witness of X3: a 200 with the whole body and a 404 whose body breaks
    after the same bytes give the same run. *)
Lemma webrequest_run_depends_on_the_bytes_read_only_witness :
  Go.run (WebRequest.main Scenario.network_up) =
  Go.run (WebRequest.main Cases.network_not_found_cut).
Proof.
  apply (webrequest_run_depends_on_the_bytes_read_only
           Scenario.network_up Cases.network_not_found_cut
           (Http.mkResponse 200 15 (Http.BodyComplete "Hello from GET!"))
           (Http.mkResponse 404 (-1) (Http.BodyBroken "Hello from GET!" "unexpected EOF"))
           "Hello from GET!").
  - reflexivity.
  - reflexivity.
  - left. reflexivity.
  - right. exists "unexpected EOF". reflexivity.
Defined.

(** Witness of X5: a 404 of unknown length. *)
Lemma webserver_prints_status_length_body_witness :
  Go.stdout (fst (Go.run (WebServer.main Cases.network_not_found_cut))) =
    "Local host" +:+ Go.newline +:+
    ("Status code:  404" +:+ Go.newline) +:+
    ("COntent Length:  -1" +:+ Go.newline) +:+
    ("Hello from GET!" +:+ Go.newline).
Proof.
  apply (webserver_prints_status_length_body Cases.network_not_found_cut
           (Http.mkResponse 404 (-1) (Http.BodyBroken "Hello from GET!" "unexpected EOF"))
           "Hello from GET!").
  - reflexivity.
  - right. exists "unexpected EOF". reflexivity.
Defined.

(** Witness of X6: the read panics. *)
Lemma webserver_always_closes_witness :
  exists evs,
    fst (Go.run (WebServer.main Scenario.network_with_panicking_body)) =
      (evs ++ [Go.CloseBody])%list.
Proof.
  apply (webserver_always_closes Scenario.network_with_panicking_body
           (Http.mkResponse 200 (-1) (Http.BodyPanics (Go.AString "read: boom")))).
  reflexivity.
Defined.

(** Witness of X7: the read fails part-way. *)
Lemma webrequest_closes_when_read_returns_witness :
  exists evs,
    fst (Go.run (WebRequest.main Scenario.network_cut)) =
      (evs ++ [Go.CloseBody])%list.
Proof.
  apply (webrequest_closes_when_read_returns Scenario.network_cut
           (Http.mkResponse 200 15 (Http.BodyBroken "Hello" "unexpected EOF"))).
  - reflexivity.
  - intros v. discriminate.
Defined.

(** ** More on the Express server *)

Section ServerExtras.
Import JS Express.
Context {Number : Type} `{NumberOps Number}.


(** X10. The POST handler echoes whatever [req.body] holds, not only
    objects: for every value the answer is 200 with "Received data: " and
    the JSON text of the value, and the word "undefined" when
    [JSON.stringify] has no text for it. *)
Theorem post_route_echoes_any_value (r : Request Number) (v : Value Number) :
  method r = POST ->
  names_route "/post" (path r) ->
  json r = Parsed v ->
  respond r =
    FromHandler
      (mkRes 200 (Some ("Received data: " +:+ interpolate (JSON_stringify v)))).
Proof.
  intros M P J. rewrite respond_cases, J.
  apply path_matches_names_route in P; [|reflexivity].
  destruct (path_matches "/get" (path r)) eqn:G;
    [destruct (not_both_routes _ G P)|].
  rewrite P, M. unfold post_handler. rewrite send_first. cbn [request body].
  rewrite M. reflexivity.
Qed.

End ServerExtras.

Section ServerExtraExamples.
Import JS.

(** Witness of X10: a POST whose [req.body] is [undefined]. *)
Lemma post_route_echoes_any_value_witness :
  Express.respond Cases.post_without_body =
    Express.FromHandler (Express.mkRes 200 (Some "Received data: undefined")).
Proof.
  apply (post_route_echoes_any_value Cases.post_without_body Undefined).
  - reflexivity.
  - right. reflexivity.
  - reflexivity.
Defined.

End ServerExtraExamples.

(** ** More on the URL demonstration *)

Section UrlExtras.
Import Go Strings NetUrl UrlDemo Observe.

(** X11. A URL string with an ASCII control byte before its fragment is
    fatal: the program prints its banner and panics with the error
    "invalid control character in URL". *)
Theorem control_byte_is_fatal (rawurl : string) :
  stringContainsCTLByte (fst (fst (Cut rawurl "#"))) = true ->
  Go.run (parse_and_print rawurl) =
    ([Printed [VString "Welcome to urls in Golang"]],
     Panicked (VError (mkError "parse" (fst (fst (Cut rawurl "#")))
                               InvalidControlCharacter))).
Proof.
  intros C.
  assert (Parse rawurl =
          inl (mkError "parse" (fst (fst (Cut rawurl "#"))) InvalidControlCharacter)) as E.
  { unfold Parse. destruct (Cut rawurl "#") as [[u frag] found]. cbn [fst] in *.
    unfold parse. rewrite C. reflexivity. }
  unfold Go.run, parse_and_print, call, mbind, go_bind, bind, Println, emit, panic.
  cbn. rewrite E. reflexivity.
Qed.

Lemma parseQuery_step_nonempty st key :
  values_nonempty (fst st) -> values_nonempty (fst (parseQuery_step st key)).
Proof.
  destruct st as [m err]. unfold parseQuery_step. cbn [fst]. intros I.
  destruct (ContainsByte key ";"); [exact I|].
  destruct (String.eqb key ""); [exact I|].
  destruct (Cut key "=") as [[k v] f].
  destruct (QueryUnescape k) as [k'|]; [|exact I].
  destruct (QueryUnescape v) as [v'|]; [|exact I].
  cbn [fst]. intros k0 vs L.
  destruct (decide (k' = k0)) as [->|N].
  - rewrite lookup_insert_eq in L. injection L as <-.
    intros A. apply app_eq_nil in A. destruct A as [_ A]. discriminate A.
  - rewrite lookup_insert_ne in L by exact N. exact (I _ _ L).
Qed.

Lemma fold_parseQuery_nonempty pieces st :
  values_nonempty (fst st) ->
  values_nonempty (fst (fold_left parseQuery_step pieces st)).
Proof.
  revert st. induction pieces as [|p pieces IH]; intros st I; [exact I|].
  cbn [fold_left]. apply IH. now apply parseQuery_step_nonempty.
Qed.

(** X12. In the mapping that [Query] returns, every key that is present
    has at least one value: no key maps to an empty list, whatever the
    query string. *)
Theorem query_values_are_never_empty (u : URL) (key : string) (vs : list string) :
  Query u !! key = Some vs -> exists v rest, vs = v :: rest.
Proof.
  intros L. assert (vs <> []) as N.
  { revert L. unfold Query, ParseQuery. apply fold_parseQuery_nonempty.
    intros k l E. cbn in E. rewrite lookup_empty in E. discriminate E. }
  destruct vs as [|v rest]; [congruence | eauto].
Qed.

Lemma plain_cons c s : plain (String c s) = alphanum c && plain s.
Proof. reflexivity. Qed.

Lemma plain_has_no (s : string) (c : ascii) :
  alphanum c = false -> plain s = true -> ContainsByte s c = false.
Proof.
  intros N. unfold ContainsByte.
  induction s as [|d s IH]; [reflexivity|].
  rewrite plain_cons, andb_true_iff. intros [A P]. cbn [IndexByte].
  destruct (Ascii.eqb d c) eqn:E.
  - apply Ascii.eqb_eq in E. subst d. congruence.
  - specialize (IH P). destruct (IndexByte s c); [discriminate IH|reflexivity].
Qed.

(** A string of letters and digits is its own unescaped form. *)
Lemma QueryUnescape_plain (s : string) : plain s = true -> QueryUnescape s = Ok s.
Proof.
  intros P. unfold QueryUnescape, unescape.
  assert (unescape_check s encodeQueryComponent = None /\
          unescape_decode s encodeQueryComponent = s) as [C D].
  { induction s as [|c s IH]; [split; reflexivity|].
    rewrite plain_cons, andb_true_iff in P. destruct P as [A P].
    destruct (IH P) as [C D].
    destruct c as [[] [] [] [] [] [] [] []]; try discriminate A;
      (split; [exact C | cbn [unescape_decode]; now rewrite D]). }
  now rewrite C, D.
Qed.

Lemma pair_text_has_no (k v : string) (c : ascii) :
  alphanum c = false -> Ascii.eqb "=" c = false ->
  plain k = true -> plain v = true ->
  ContainsByte (pair_text k v) c = false.
Proof.
  intros N E K V. unfold pair_text.
  rewrite !ContainsByte_append, (plain_has_no k c N K), (plain_has_no v c N V).
  unfold ContainsByte at 1. cbn [IndexByte]. now rewrite E.
Qed.

Lemma parseQuery_step_plain_pair (m : Values) err (k v : string) :
  k <> "" -> plain k = true -> plain v = true ->
  parseQuery_step (m, err) (pair_text k v) =
    (<[k := (default [] (m !! k) ++ [v])%list]> m, err).
Proof.
  intros NE K V. unfold parseQuery_step.
  rewrite (pair_text_has_no k v ";") by (reflexivity || assumption).
  assert (String.eqb (pair_text k v) "" = false) as ->.
  { destruct k; [congruence | reflexivity]. }
  change (pair_text k v) with (k +:+ String "=" v).
  rewrite Cut_at_first by (apply plain_has_no; [reflexivity | assumption]).
  now rewrite !QueryUnescape_plain by assumption.
Qed.

Lemma fold_plain_pairs (k : string) (vs : list string) (m : Values) :
  k <> "" -> plain k = true -> forallb plain vs = true ->
  fold_left parseQuery_step (map (pair_text k) vs) (m, None) =
    (match vs with
     | [] => m
     | _ => <[k := (default [] (m !! k) ++ vs)%list]> m
     end, None).
Proof.
  intros NE K. revert m. induction vs as [|v vs IH]; intros m P; [reflexivity|].
  cbn [forallb] in P. apply andb_true_iff in P. destruct P as [V P].
  cbn [map fold_left]. rewrite parseQuery_step_plain_pair by assumption.
  rewrite IH by assumption. destruct vs as [|w vs]; [reflexivity|].
  rewrite lookup_insert_eq. cbn [default]. rewrite insert_insert_eq.
  unfold id. now rewrite <- List.app_assoc.
Qed.

(** X13. A query string that gives one key several times, with values of
    letters and digits, yields exactly one entry for that key, and its
    list holds all the values in the order in which they were written;
    nothing is reported as malformed. *)
Theorem query_keeps_repeated_values_in_order (u : URL) (k : string) (vs : list string) :
  k <> "" -> plain k = true -> forallb plain vs = true -> vs <> [] ->
  RawQuery u = Text.join "&" (map (pair_text k) vs) ->
  Query u = {[k := vs]} /\ snd (ParseQuery (RawQuery u)) = None.
Proof.
  intros NE K P NV R. unfold Query, ParseQuery. rewrite R.
  rewrite Split_join.
  - rewrite fold_plain_pairs by assumption. cbn [fst snd].
    destruct vs as [|v vs]; [congruence|].
    rewrite lookup_empty. cbn [default List.app]. now rewrite insert_empty.
  - destruct vs; [congruence | discriminate].
  - rewrite forallb_forall. intros p I. apply in_map_iff in I.
    destruct I as (v & <- & I). rewrite forallb_forall in P.
    apply negb_true_iff, pair_text_has_no; auto.
Qed.

(** X14. What [Port] returns, and the program prints, is always a string
    of decimal digits, possibly empty: a host whose last colon is not
    followed by digits only has no port. *)
Theorem port_is_a_digit_string (u : URL) : digits (Port u) = true.
Proof.
  unfold Port, splitHostPort.
  destruct (LastIndexByte (Host u) ":") as [colon|] eqn:L.
  - destruct (validOptionalPort (drop colon (Host u))) eqn:V.
    + rewrite (drop_at_last_index _ _ _ L) in V. cbn in V.
      destruct (HasPrefix _ "[" && HasSuffix _ "]"); cbn [snd]; exact V.
    + destruct (HasPrefix _ "[" && HasSuffix _ "]"); reflexivity.
  - destruct (HasPrefix _ "[" && HasSuffix _ "]"); reflexivity.
Qed.

Lemma parse_scheme_lower (s : string) (u : URL) :
  parse s = Ok u -> ToLower (Scheme u) = Scheme u.
Proof.
  unfold parse.
  destruct (stringContainsCTLByte s); [discriminate|].
  destruct (String.eqb s "*"); [intros [= <-]; reflexivity|].
  destruct (getScheme s) as [[scheme rest]|]; [|discriminate].
  destruct (if HasSuffix rest "?" && (CountByte rest "?" =? 1)%nat
            then (take (String.length rest - 1) rest, true, "")
            else let '(before, after, _) := Cut rest "?" in (before, false, after))
    as [[rest' fq] rq].
  repeat match goal with
         | |- (if ?b then _ else _) = _ -> _ => destruct b
         | |- (let '(_, _) := ?x in _) = _ -> _ => destruct x
         | |- match ?x with _ => _ end = _ -> _ => destruct x
         end; try discriminate; intros [= <-]; cbn [Scheme];
    apply ToLower_idempotent.
Qed.

(** X15. Whenever [url.Parse] accepts a string, the scheme it returns,
    and the program prints, holds no upper-case ASCII letter: lowering it
    again changes nothing. *)
Theorem parsed_scheme_is_lower_case (rawurl : string) (u : URL) :
  Parse rawurl = inr u -> ToLower (Scheme u) = Scheme u.
Proof.
  unfold Parse. destruct (Cut rawurl "#") as [[s frag] found].
  destruct (parse s) as [url|] eqn:P; [|discriminate].
  apply parse_scheme_lower in P.
  destruct (String.eqb frag ""); [intros [= <-]; exact P|].
  destruct (unescape frag encodeFragment); [|discriminate].
  intros [= <-]. exact P.
Qed.

End UrlExtras.

(** Witness of X11: a tab in the path. *)
Lemma control_byte_is_fatal_witness :
  Go.run (UrlDemo.parse_and_print Cases.url_with_tab) =
    ([Go.Printed [UrlDemo.VString "Welcome to urls in Golang"]],
     Go.Panicked (UrlDemo.VError
       (NetUrl.mkError "parse" Cases.url_with_tab NetUrl.InvalidControlCharacter))).
Proof.
  apply (control_byte_is_fatal Cases.url_with_tab). vm_compute. reflexivity.
Defined.

(** Witness of X12: the key [x] of the query [x=1&x=2]. *)
Lemma query_values_are_never_empty_witness :
  exists v rest, ["1"; "2"] = v :: rest.
Proof.
  apply (query_values_are_never_empty Cases.url_with_repeated_key "x").
  vm_compute. reflexivity.
Defined.

(** Witness of X13: the query [x=1&x=2]. *)
Lemma query_keeps_repeated_values_in_order_witness :
  NetUrl.Query Cases.url_with_repeated_key = {["x" := ["1"; "2"]]} /\
  snd (NetUrl.ParseQuery (NetUrl.RawQuery Cases.url_with_repeated_key)) = None.
Proof.
  apply (query_keeps_repeated_values_in_order Cases.url_with_repeated_key "x" ["1"; "2"]).
  - discriminate.
  - reflexivity.
  - reflexivity.
  - discriminate.
  - reflexivity.
Defined.

(** Witness of X15: a URL written in capitals. *)
Lemma parsed_scheme_is_lower_case_witness :
  Strings.ToLower "https" = "https".
Proof.
  apply (parsed_scheme_is_lower_case Cases.url_in_capitals
           (NetUrl.mkURL "https" "" None "HOST.EXAMPLE" "/Path" false false "" "")).
  vm_compute. reflexivity.
Defined.

(** ** The functions of the study notes *)

Section NotesProperties.
Import Go Strings Notes.

(** X16. [NewPersonWithValidation] returns a person, and no error, exactly
    when both names are non-empty and the age lies between 0 and 150; the
    person then carries the four arguments and zero values elsewhere.  In
    every other case it returns no person and an error. *)
Theorem NewPersonWithValidation_accepts_exactly_valid_input
  (firstName lastName email : string) (age : Z) :
  (NewPersonWithValidation firstName lastName email age =
     (Some (mkPerson firstName lastName age email "" ZeroTime), None)
   <-> firstName <> "" /\ lastName <> "" /\ 0 <= age <= 150) /\
  ((firstName <> "" /\ lastName <> "" /\ 0 <= age <= 150) \/
   exists msg,
     NewPersonWithValidation firstName lastName email age = (None, Some msg)).
Proof.
  unfold NewPersonWithValidation.
  destruct (String.eqb firstName "") eqn:F; cbn [orb].
  { apply String.eqb_eq in F. split.
    - split; [discriminate | intros (N & _); congruence].
    - right. eauto. }
  destruct (String.eqb lastName "") eqn:L; cbn [orb].
  { apply String.eqb_eq in L. split.
    - split; [discriminate | intros (_ & N & _); congruence].
    - right. eauto. }
  apply String.eqb_neq in F, L.
  destruct (age <? 0) eqn:A; cbn [orb].
  { apply Z.ltb_lt in A. split.
    - split; [discriminate | lia].
    - right. eauto. }
  destruct (150 <? age) eqn:B.
  { apply Z.ltb_lt in B. split.
    - split; [discriminate | lia].
    - right. eauto. }
  apply Z.ltb_ge in A, B.
  split; [split; [intros _|reflexivity]|left]; repeat split; auto.
Qed.

(** X17. [NewPersonWithValidation] checks the names before the age: with
    an empty name the error is the one about names whatever the age, and
    only with both names present is an age out of range reported, with
    the age in decimal. *)
Theorem NewPersonWithValidation_checks_names_before_age
  (firstName lastName email : string) (age : Z) :
  (firstName = "" \/ lastName = "" ->
   NewPersonWithValidation firstName lastName email age =
     (None, Some "first name and last name are required")) /\
  (firstName <> "" -> lastName <> "" -> age < 0 \/ 150 < age ->
   NewPersonWithValidation firstName lastName email age =
     (None, Some ("invalid age: " +:+ Text.decimal age))).
Proof.
  unfold NewPersonWithValidation. split.
  - intros [-> | ->]; [reflexivity|]. now rewrite orb_true_r.
  - intros F L A. rewrite !eqb_empty_false by assumption. cbn [orb].
    destruct A as [A|A].
    + apply Z.ltb_lt in A. now rewrite A.
    + apply Z.ltb_lt in A. rewrite A. now rewrite orb_true_r.
Qed.

Lemma wrap_int_in_range (n : Z) : MinInt <= n <= MaxInt -> wrap_int n = n.
Proof.
  unfold MinInt, MaxInt, wrap_int. intros R.
  rewrite Z.mod_small by lia. lia.
Qed.

(** X18. As long as the age stays within [int], [n] calls of
    [HaveBirthday] add [n] to the age and change no other field. *)
Theorem birthdays_add_up (p : Person) (n : nat) :
  MinInt <= Age p ->
  Age p + Z.of_nat n <= MaxInt ->
  birthdays n p =
    mkPerson (FirstName p) (LastName p) (Age p + Z.of_nat n) (Email p)
             (ssn p) (birthDate p).
Proof.
  revert p. induction n as [|n IH]; intros p Lo Hi.
  - cbn [birthdays]. rewrite Z.add_0_r. now destruct p.
  - cbn [birthdays].
    rewrite IH; unfold HaveBirthday;
      cbn [Age FirstName LastName Email ssn birthDate];
      rewrite wrap_int_in_range by lia; [f_equal; lia | lia | lia].
Qed.

(** X19. A birthday keeps an adult an adult, except at the largest [int]:
    there [Age++] wraps around to the smallest [int] and the person is no
    longer an adult. *)
Theorem HaveBirthday_keeps_adults_adult_except_at_MaxInt (p : Person) :
  (IsAdult p = true -> Age p < MaxInt -> IsAdult (HaveBirthday p) = true) /\
  (Age p = MaxInt ->
   Age (HaveBirthday p) = MinInt /\ IsAdult (HaveBirthday p) = false).
Proof.
  unfold IsAdult, HaveBirthday. cbn [Age]. split.
  - intros A L. apply Z.leb_le in A. apply Z.leb_le.
    rewrite wrap_int_in_range; unfold MinInt, MaxInt in *; lia.
  - intros ->. split; reflexivity.
Qed.

(** X20. [UserID.String] tells identifiers apart: two identifiers have the
    same text exactly when they are equal. *)
Theorem UserID_String_is_injective (a b : UserID) :
  UserID_String a = UserID_String b <-> a = b.
Proof.
  split; [|intros ->; reflexivity].
  unfold UserID_String. intros E. apply decimal_injective.
  now apply String.app_inj in E.
Qed.

(** X21. No status code is both a success and an error, and the codes
    that are neither are those below 200 and those from 300 to 399. *)
Theorem success_and_error_statuses_are_disjoint (sc : StatusCode) :
  IsSuccess sc && IsError sc = false /\
  (IsSuccess sc || IsError sc = false <-> sc < 200 \/ 300 <= sc < 400).
Proof.
  unfold IsSuccess, IsError. split.
  - destruct (200 <=? sc) eqn:A, (sc <? 300) eqn:B, (400 <=? sc) eqn:C;
      try reflexivity.
    apply Z.ltb_lt in B. apply Z.leb_le in C. lia.
  - rewrite orb_false_iff, andb_false_iff, Z.leb_gt, Z.ltb_ge, Z.leb_gt. lia.
Qed.

(** X22. [Validate] returns no error exactly when the identifier is
    positive, the email passes [IsValid] and the name is not empty. *)
Theorem Validate_accepts_exactly (u : User) :
  Validate u = None <->
  0 < ID u /\ IsValid (UserEmail u) = true /\ Name u <> "".
Proof.
  unfold Validate.
  destruct (ID u <=? 0) eqn:I.
  { apply Z.leb_le in I. split; [discriminate | lia]. }
  apply Z.leb_gt in I.
  destruct (IsValid (UserEmail u)) eqn:V; cbn [negb].
  2: { split; [discriminate | intros (_ & X & _); discriminate X]. }
  destruct (String.eqb (Name u) "") eqn:N.
  { apply String.eqb_eq in N.
    split; [discriminate | intros (_ & _ & X); congruence]. }
  apply String.eqb_neq in N. split; auto.
Qed.

(** X23. For an address with exactly one [@], [Domain] returns what
    follows it. *)
Theorem Domain_returns_what_follows_the_only_at (local domain : string) :
  ContainsByte local "@" = false ->
  ContainsByte domain "@" = false ->
  Domain (local +:+ "@" +:+ domain) = domain.
Proof.
  intros L D. unfold Domain.
  change (local +:+ "@" +:+ domain) with (local +:+ String "@" domain).
  rewrite Split_at_first by exact L.
  now rewrite Split_without_separator by exact D.
Qed.

(** X24. For an address with no [@], or with more than one, [Domain]
    returns the empty string. *)
Theorem Domain_is_empty_unless_exactly_one_at (e : EmailAddress) :
  CountByte e "@" <> 1%nat -> Domain e = "".
Proof.
  intros N. unfold Domain. pose proof (Split_length e "@") as L.
  destruct (Split e "@") as [|a [|b [|c rest]]]; try reflexivity.
  cbn in L. congruence.
Qed.

(** X25. [Validate] accepts a user whose email ends in [@]: with a
    positive identifier, a name, and at least three bytes before the [@],
    the user is valid although [Domain] of the address is empty. *)
Theorem Validate_accepts_an_email_without_domain
  (id : UserID) (local name : string) (active : bool) :
  0 < id ->
  name <> "" ->
  (3 <= String.length local)%nat ->
  ContainsByte local "@" = false ->
  Validate (mkUser id (local +:+ "@") name active) = None /\
  Domain (local +:+ "@") = "".
Proof.
  intros I N Len L. split.
  - unfold Validate. cbn [ID UserEmail Name].
    assert ((id <=? 0) = false) as -> by (apply Z.leb_gt; lia).
    unfold IsValid. rewrite ContainsByte_append, length_append, orb_true_r.
    cbn [String.length andb].
    assert ((3 <? String.length local + 1)%nat = true) as ->
      by (apply Nat.ltb_lt; lia).
    cbn [negb]. destruct name; [congruence | reflexivity].
  - apply (Domain_returns_what_follows_the_only_at local "");
      [exact L | reflexivity].
Qed.

End NotesProperties.

(** Witness of X17: an empty first name with an age out of range, and an
    age out of range alone. *)
Lemma NewPersonWithValidation_checks_names_before_age_witness :
  Notes.NewPersonWithValidation "" "Lovelace" "ada@example.com" 200 =
    (None, Some "first name and last name are required") /\
  Notes.NewPersonWithValidation "Ada" "Lovelace" "ada@example.com" (-5) =
    (None, Some "invalid age: -5").
Proof.
  split.
  - apply (proj1 (NewPersonWithValidation_checks_names_before_age
                    "" "Lovelace" "ada@example.com" 200)).
    left. reflexivity.
  - apply (proj2 (NewPersonWithValidation_checks_names_before_age
                    "Ada" "Lovelace" "ada@example.com" (-5))).
    + discriminate.
    + discriminate.
    + left. reflexivity.
Defined.

(** Witness of X18: one birthday at 17. *)
Lemma birthdays_add_up_witness :
  Notes.birthdays 1 Cases.seventeen =
    Notes.mkPerson "Ada" "Lovelace" (17 + Z.of_nat 1) "ada@example.com" ""
                   Notes.ZeroTime.
Proof.
  apply (birthdays_add_up Cases.seventeen 1); vm_compute; discriminate.
Defined.

(** Witness of X19: an 18-year-old stays an adult; at the largest [int]
    the age wraps. *)
Lemma HaveBirthday_keeps_adults_adult_except_at_MaxInt_witness :
  Notes.IsAdult (Notes.HaveBirthday (Notes.HaveBirthday Cases.seventeen)) = true /\
  Notes.Age (Notes.HaveBirthday Cases.oldest) = Notes.MinInt /\
  Notes.IsAdult (Notes.HaveBirthday Cases.oldest) = false.
Proof.
  split.
  - apply (proj1 (HaveBirthday_keeps_adults_adult_except_at_MaxInt
                    (Notes.HaveBirthday Cases.seventeen))); reflexivity.
  - apply (proj2 (HaveBirthday_keeps_adults_adult_except_at_MaxInt Cases.oldest)).
    reflexivity.
Defined.

(** Witness of X23: an ordinary address. *)
Lemma Domain_returns_what_follows_the_only_at_witness :
  Notes.Domain ("user" +:+ "@" +:+ "example.com") = "example.com".
Proof.
  apply (Domain_returns_what_follows_the_only_at "user" "example.com");
    reflexivity.
Defined.

(** Witness of X24: an address with two [@]. *)
Lemma Domain_is_empty_unless_exactly_one_at_witness :
  Notes.Domain "a@b@example.com" = "".
Proof.
  apply (Domain_is_empty_unless_exactly_one_at "a@b@example.com").
  vm_compute. discriminate.
Defined.

(** Witness of X25: the address [ada@]. *)
Lemma Validate_accepts_an_email_without_domain_witness :
  Notes.Validate (Notes.mkUser 7 ("ada" +:+ "@") "Ada" true) = None /\
  Notes.Domain ("ada" +:+ "@") = "".
Proof.
  apply (Validate_accepts_an_email_without_domain 7 "ada" "Ada" true).
  - reflexivity.
  - discriminate.
  - vm_compute. reflexivity.
  - reflexivity.
Defined.
